(** * astro-adapter-nekoweb: the deployment pipeline of the [astro:build:done] hook

    A shallow embedding of the adapter's build hook (version 3.0.0, the
    class-based client built on [@indiefellas/nekoweb-api]) together with
    the two earlier shapes of the same hook that the repository still
    carries (version 2.0.3 on the client library, and version 2.0.3 on
    plain [fetch]).

    The hook is effectful: it touches the local file system, talks to the
    Nekoweb HTTP API and writes to the build logger.  It is modelled in a
    small monad [M] that threads the local file system, collects the
    observable events of the run in order, and propagates JavaScript
    exceptions.  Everything outside the repository (the remote server, the
    client library, the [archiver] package and the clock) is gathered in a
    [World] record whose fields are read at the call site that uses them. *)

From Stdlib Require Import String Ascii List Bool Arith NArith Lia.
From Stdlib Require Import DecimalString.
Import ListNotations.
Local Open Scope list_scope.
Local Open Scope string_scope.

(** ** Local paths *)

(** A resolved local path is the list of its segments below the root of the
    file system.  [path.join(a, b)] on resolved operands is concatenation. *)
Definition Path := list string.
Bind Scope list_scope with Path.

Fixpoint is_prefix (p q : Path) : bool :=
  match p, q with
  | [], _ => true
  | _ :: _, [] => false
  | a :: p', b :: q' => String.eqb a b && is_prefix p' q'
  end.

Fixpoint strip_prefix (p q : Path) : option Path :=
  match p, q with
  | [], _ => Some q
  | _ :: _, [] => None
  | a :: p', b :: q' => if String.eqb a b then strip_prefix p' q' else None
  end.

Fixpoint path_eqb (p q : Path) : bool :=
  match p, q with
  | [], [] => true
  | a :: p', b :: q' => String.eqb a b && path_eqb p' q'
  | _, _ => false
  end.

(** [s.split('/')]: the segments between slashes, empty ones included. *)
Fixpoint split_slash_aux (s : string) (cur : string) : list string :=
  match s with
  | EmptyString => [cur]
  | String c s' =>
      if Ascii.eqb c "/"%char then cur :: split_slash_aux s' EmptyString
      else split_slash_aux s' (cur ++ String c EmptyString)
  end.

Definition split_slash (s : string) : list string := split_slash_aux s EmptyString.

(** Path normalisation as [node:path] does it on a relative tail: empty and
    [.] segments vanish, [..] pops the segment before it. *)
Fixpoint normalize_onto (acc : Path) (segs : list string) : Path :=
  match segs with
  | [] => acc
  | s :: rest =>
      if String.eqb s "" then normalize_onto acc rest
      else if String.eqb s "." then normalize_onto acc rest
      else if String.eqb s ".." then normalize_onto (removelast acc) rest
      else normalize_onto (acc ++ [s])%list rest
  end.

(** [path.join(base, rel)] for a resolved [base] and a relative string. *)
Definition join (base : Path) (rel : string) : Path :=
  normalize_onto base (split_slash rel).

Fixpoint concat_with (sep : string) (l : list string) : string :=
  match l with
  | [] => ""
  | [x] => x
  | x :: rest => x ++ sep ++ concat_with sep rest
  end.

(** How a resolved path prints inside a log line. *)
Definition show_path (p : Path) : string := "/" ++ concat_with "/" p.

(** ** The local file system *)

Inductive Node :=
| File (content : string)
| Dir.

Definition FS := Path -> option Node.

Definition existsSync (p : Path) (fs : FS) : bool :=
  match fs p with Some _ => true | None => false end.

(** [fs.rmSync(p, { recursive: true, force: true })] *)
Definition rm_tree (p : Path) (fs : FS) : FS :=
  fun q => if is_prefix p q then None else fs q.

Definition write_node (p : Path) (n : Node) (fs : FS) : FS :=
  fun q => if path_eqb p q then Some n else fs q.

Definition remove_node (p : Path) (fs : FS) : FS :=
  fun q => if path_eqb p q then None else fs q.

(** [fs.renameSync(a, b)]: the entry at [a] and everything below it move
    to [b]. *)
Definition move_tree (a b : Path) (fs : FS) : FS :=
  fun q =>
    match strip_prefix b q with
    | Some rest => fs (a ++ rest)%list
    | None => if is_prefix a q then None else fs q
    end.

(** [fs.cpSync(src, dst, { recursive: true })]: every entry below [src] is
    written at the same place below [dst]; entries of [dst] that [src] does
    not have stay; missing ancestors of [dst] are created. *)
Definition copy_tree (src dst : Path) (fs : FS) : FS :=
  fun q =>
    match strip_prefix dst q with
    | Some rest =>
        match fs (src ++ rest)%list with
        | Some n => Some n
        | None => fs q
        end
    | None =>
        match fs q with
        | Some n => Some n
        | None => if is_prefix q dst then Some Dir else None
        end
    end.

(** The tree below a directory, with paths relative to it: what
    [archive.directory(source, false)] puts into the archive. *)
Definition subtree (dir : Path) (fs : FS) : FS :=
  fun rest => fs (dir ++ rest)%list.

(** ** Errors, requests and events *)

Inductive Endpoint :=
| EpSiteInfo | EpBigCreate | EpBigAppend | EpDelete | EpImport | EpCsrf | EpFileEdit.

Definition Endpoint_eqb (a b : Endpoint) : bool :=
  match a, b with
  | EpSiteInfo, EpSiteInfo | EpBigCreate, EpBigCreate | EpBigAppend, EpBigAppend
  | EpDelete, EpDelete | EpImport, EpImport | EpCsrf, EpCsrf
  | EpFileEdit, EpFileEdit => true
  | _, _ => false
  end.

(** Modelled from the spec: the error values of the [@indiefellas/nekoweb-api]
    client, which is a dependency and not part of the sources.  The spec's
    taxonomy has one error per remote step ([SessionCreateError],
    [UploadAppendError], [ImportError], [DeleteError], [CSRFError],
    [MetadataEditError]), each carrying the HTTP status and the server's
    message; [ApiError ep status body] is the error of the step that calls
    endpoint [ep].  [FsError] is a [node:fs] failure with its code, and
    [PlainError] is [new Error(message)]. *)
Inductive JsError :=
| ApiError (ep : Endpoint) (status : N) (body : string)
| FsError (code : string) (p : Path)
| PlainError (message : string).

(** The text of [`${error}`]. *)
Definition error_toString (e : JsError) : string :=
  match e with
  | ApiError _ _ body => "Error: " ++ body
  | FsError code p => "Error: " ++ code ++ ": " ++ show_path p
  | PlainError m => "Error: " ++ m
  end.

Definition Headers := list (string * string).

(** [h[name]] *)
Fixpoint header (name : string) (h : Headers) : option string :=
  match h with
  | [] => None
  | (k, v) :: rest => if String.eqb k name then Some v else header name rest
  end.

(** The configuration object handed to [new NekowebAPI({...})].  The
    [logging] callback forwards to the build logger and is not a field. *)
Record Config := {
  cfg_apiKey : string;
  cfg_appName : string;
  cfg_headers : Headers
}.

Record EditForm := {
  pathname : string;
  content : string;
  site : string;
  csrf : string
}.

Inductive Request :=
| GetSiteInfo (domain : option string)
| BigCreate
| BigAppend (id : string) (bytes : string)
| DeletePath (folder : string)
| ImportBig (id : string)
| GetCsrf
| FileEdit (form : EditForm).

Definition endpoint_of (r : Request) : Endpoint :=
  match r with
  | GetSiteInfo _ => EpSiteInfo
  | BigCreate => EpBigCreate
  | BigAppend _ _ => EpBigAppend
  | DeletePath _ => EpDelete
  | ImportBig _ => EpImport
  | GetCsrf => EpCsrf
  | FileEdit _ => EpFileEdit
  end.

Inductive Level := Info | Warn | Err.

Inductive FsOp :=
| RmTree (p : Path)
| Mkdir (p : Path)
| Rename (a b : Path)
| CopyTree (src dst : Path)
| WriteFile (p : Path)
| Unlink (p : Path).

(** Who sends a request: a client of the library, known by the configuration
    it was built with, or a bare [fetch] with the headers it is given. *)
Inductive Client :=
| ViaLibrary (cfg : Config)
| ViaFetch (headers : Headers).

(** What a run does, in order.  [Sent c r]: request [r] leaves through the
    client configured by [c].  [Resolved ep] / [Rejected ep e]: the program
    awaited the promise of a call to [ep] and saw it succeed / fail. *)
Inductive Event :=
| Sent (client : Client) (r : Request)
| Resolved (ep : Endpoint)
| Rejected (ep : Endpoint) (e : JsError)
| Log (lvl : Level) (msg : string)
| ConsoleError (e : JsError)
| Fs (op : FsOp).

Definition Trace := list Event.
Bind Scope list_scope with Trace.

(** ** Everything outside the repository *)

Record SiteInfo := {
  si_username : string;
  si_domain : string;
  si_folder : option string
}.

Inductive Outcome (A : Type) :=
| Success (a : A)
| Failure (status : N) (body : string).
Arguments Success {A} a.
Arguments Failure {A} status body.

(** One field per call site of the hook; a call site runs at most once in
    a run, so the record fixes the behaviour of the server for that run. *)
Record World := {
  archiver : FS -> string;            (* bytes [archiver] writes for a tree *)
  on_siteInfo : Outcome SiteInfo;     (* neko.getSiteInfo(domain) *)
  on_create : Outcome string;         (* /files/big/create, the session id *)
  on_append : Outcome unit;           (* bigId.append(zip) *)
  on_delete : Outcome unit;           (* neko.delete(folder) *)
  on_import : Outcome unit;           (* this.import() *)
  on_csrfSiteInfo : Outcome SiteInfo; (* this.getSiteInfo() in getCSRFToken *)
  on_csrf : Outcome string;           (* ucfg.generic('/csrf') *)
  on_editRss : Outcome unit;          (* editFileCSRF for the RSS feed *)
  on_editMarker : Outcome unit;       (* editFileCSRF for the marker file *)
  now_rss : N;                        (* Date.now() in the RSS marker *)
  now_marker : N;                     (* Date.now() in the marker file *)
  now_text : string;                  (* new Date(Date.now()).toString() *)
  readdir : Path -> option (list string) (* fs.readdirSync, [None]: it throws *)
}.

(** ** The effect monad *)

Definition Result (A : Type) := (JsError + A)%type.

Definition M (A : Type) := FS -> Result A * FS * Trace.

Definition ret {A} (a : A) : M A := fun fs => (inr a, fs, []).

Definition throw {A} (e : JsError) : M A := fun fs => (inl e, fs, []).

Definition bind {A B} (m : M A) (f : A -> M B) : M B :=
  fun fs =>
    match m fs with
    | (inl e, fs1, t1) => (inl e, fs1, t1)
    | (inr a, fs1, t1) =>
        match f a fs1 with
        | (r, fs2, t2) => (r, fs2, (t1 ++ t2)%list)
        end
    end.

(** [try { m } catch (e) { h e }] *)
Definition try_catch {A} (m : M A) (h : JsError -> M A) : M A :=
  fun fs =>
    match m fs with
    | (inr a, fs1, t1) => (inr a, fs1, t1)
    | (inl e, fs1, t1) =>
        match h e fs1 with
        | (r, fs2, t2) => (r, fs2, (t1 ++ t2)%list)
        end
    end.

Definition emit (e : Event) : M unit := fun fs => (inr tt, fs, [e]).

Definition log (lvl : Level) (msg : string) : M unit := emit (Log lvl msg).

Declare Scope js_scope.
Delimit Scope js_scope with js.
Notation "x <- m ;; k" := (bind m (fun x => k))
  (at level 61, m at next level, right associativity) : js_scope.
Notation "m ;; k" := (bind m (fun _ => k))
  (at level 61, right associativity) : js_scope.
Local Open Scope js_scope.

Definition result_of {A} (r : Result A * FS * Trace) : Result A := fst (fst r).
Definition fs_of {A} (r : Result A * FS * Trace) : FS := snd (fst r).
Definition trace_of {A} (r : Result A * FS * Trace) : Trace := snd r.
Arguments result_of : simpl never.
Arguments fs_of : simpl never.
Arguments trace_of : simpl never.

(** *** Promises

    A call into the client library sends its request at once and hands
    back a promise.  The promise is already bound to its outcome; the
    program only sees that outcome where it awaits the promise. *)
Record Promise (A : Type) := {
  origin : Endpoint;
  settled : Result A
}.
Arguments origin {A} p.
Arguments settled {A} p.

Definition request {A} (client : Config) (r : Request) (o : Outcome A)
  : M (Promise A) :=
  emit (Sent (ViaLibrary client) r) ;;
  ret {| origin := endpoint_of r;
         settled := match o with
                    | Success a => inr a
                    | Failure st body => inl (ApiError (endpoint_of r) st body)
                    end |}.

Definition await {A} (p : Promise A) : M A :=
  match settled p with
  | inr a => emit (Resolved (origin p)) ;; ret a
  | inl e => emit (Rejected (origin p) e) ;; throw e
  end.

(** What an [async] function hands to its caller: a plain value, or a
    promise it returned without awaiting, which the caller's [await] then
    follows. *)
Inductive AsyncRet (A : Type) :=
| Value (a : A)
| Adopt (p : Promise A).
Arguments Value {A} a.
Arguments Adopt {A} p.

Definition await_async {A} (m : M (AsyncRet A)) : M A :=
  r <- m ;;
  match r with
  | Value a => ret a
  | Adopt p => await p
  end.

(** *** [node:fs] in the monad *)

Definition fs_existsSync (p : Path) : M bool :=
  fun fs => (inr (existsSync p fs), fs, []).

Definition fs_rmSync (p : Path) : M unit :=
  fun fs => (inr tt, rm_tree p fs, [Fs (RmTree p)]).

(** [fs.mkdirSync(p)]: refused when [p] is there already.  The parent is
    taken to exist (the hook makes one directory, in the working
    directory). *)
Definition fs_mkdirSync (p : Path) : M unit :=
  fun fs =>
    match fs p with
    | Some _ => (inl (FsError "EEXIST" p), fs, [])
    | None => (inr tt, write_node p Dir fs, [Fs (Mkdir p)])
    end.

Definition fs_readFileSync (p : Path) : M string :=
  fun fs =>
    match fs p with
    | Some (File s) => (inr s, fs, [])
    | Some Dir => (inl (FsError "EISDIR" p), fs, [])
    | None => (inl (FsError "ENOENT" p), fs, [])
    end.

(** A rename onto an existing directory is refused (a file cannot replace
    a directory, and whether a directory is empty cannot be read off this
    representation). *)
Definition fs_renameSync (a b : Path) : M unit :=
  fun fs =>
    match fs a, fs b with
    | None, _ => (inl (FsError "ENOENT" a), fs, [])
    | Some (File _), Some Dir => (inl (FsError "EISDIR" b), fs, [])
    | Some Dir, Some (File _) => (inl (FsError "ENOTDIR" b), fs, [])
    | Some Dir, Some Dir => (inl (FsError "ENOTEMPTY" b), fs, [])
    | Some _, _ => (inr tt, move_tree a b fs, [Fs (Rename a b)])
    end.

Definition fs_cpSync (src dst : Path) : M unit :=
  fun fs =>
    match fs src with
    | None => (inl (FsError "ENOENT" src), fs, [])
    | Some n =>
        if is_prefix src dst then (inl (FsError "ERR_FS_CP_EINVAL" dst), fs, [])
        else
          match n, fs dst with
          | Dir, Some (File _) =>
              (inl (FsError "ERR_FS_CP_DIR_TO_NON_DIR" dst), fs, [])
          | File _, Some Dir =>
              (inl (FsError "ERR_FS_CP_NON_DIR_TO_DIR" dst), fs, [])
          | _, _ => (inr tt, copy_tree src dst fs, [Fs (CopyTree src dst)])
          end
    end.

Definition fs_unlink (p : Path) : M unit :=
  fun fs =>
    match fs p with
    | Some (File _) => (inr tt, remove_node p fs, [Fs (Unlink p)])
    | Some Dir => (inl (FsError "EISDIR" p), fs, [])
    | None => (inl (FsError "ENOENT" p), fs, [])
    end.

(** [zipDirectory(source, out)]: one file is written at [out], holding the
    archive of the tree below [source]. *)
Definition zipDirectory (w : World) (source out : Path) : M unit :=
  fun fs =>
    match fs out with
    | Some Dir => (inl (FsError "EISDIR" out), fs, [])
    | _ => (inr tt, write_node out (File (archiver w (subtree source fs))) fs,
            [Fs (WriteFile out)])
    end.

(** ** Small JavaScript helpers *)

(** Truthiness of an optional string: [undefined] and [''] are falsy. *)
Definition truthy (o : option string) : bool :=
  match o with
  | Some s => negb (String.eqb s "")
  | None => false
  end.

(** [x ?? ''] *)
Definition or_empty (o : option string) : string :=
  match o with Some s => s | None => "" end.

(** [`${n}`] for a non-negative integer. *)
Definition N_toString (n : N) : string := NilEmpty.string_of_uint (N.to_uint n).

Definition hex_digit (n : nat) : ascii :=
  nth n (list_ascii_of_string "0123456789ABCDEF") "0"%char.

Definition is_unreserved (c : ascii) : bool :=
  let n := nat_of_ascii c in
  (Nat.leb 65 n && Nat.leb n 90) || (Nat.leb 97 n && Nat.leb n 122)
  || (Nat.leb 48 n && Nat.leb n 57)
  || existsb (Ascii.eqb c)
       ["-"; "_"; "."; "!"; "~"; "*"; "'"; "("; ")"]%char.

(** [encodeURIComponent] on a string given as its UTF-8 bytes. *)
Fixpoint encodeURIComponent (s : string) : string :=
  match s with
  | EmptyString => EmptyString
  | String c rest =>
      if is_unreserved c then String c (encodeURIComponent rest)
      else
        let n := nat_of_ascii c in
        String "%" (String (hex_digit (n / 16)) (String (hex_digit (n mod 16))
          (encodeURIComponent rest)))
  end.

(** The resolved place of the hook: the working directory of the build and
    [fileURLToPath(dir)], the directory Astro built the site into. *)
Record Env := {
  cwd : Path;
  outDir : Path
}.

(** [path.join(outDir, '404.html')] and [path.join(outDir, 'not_found.html')] *)
Definition path404 (e : Env) : Path := (outDir e ++ ["404.html"])%list.
Definition pathNotFound (e : Env) : Path := (outDir e ++ ["not_found.html"])%list.

Definition dquote : ascii := ascii_of_nat 34.

Definition quoted (s : string) : string := String dquote s ++ String dquote "".

(** ** Version 3.0.0: the hook on the client library *)

Module V3.

Definition version : string := "3.0.0".

Record Options := {
  apiKey : string;
  domain : option string;
  cookie : option string;
  siteName : option string;
  rssFeed : option string
}.

Record NekoAPI := {
  config : Config;          (* the configuration passed to [super] *)
  ucfg : option Config;     (* the cookie client, [null] without a cookie *)
  api_csrf : string;
  api_site : string
}.

Definition appName : string :=
  "astro-adapter-nekoweb/" ++ version
  ++ " (https://github.com/indiefellas/astro-adapter-nekoweb)".

(** The no-cookie branch writes the name in single quotes, so the
    placeholder is not filled in. *)
Definition appName_literal : string :=
  "astro-adapter-nekoweb/${version} (https://github.com/indiefellas/astro-adapter-nekoweb)".

Definition ucfg_headers (cookie : string) : Headers :=
  [ ("Authorization", "");
    ("Origin", "https://nekoweb.org");
    ("Host", "nekoweb.org");
    ("User-Agent", "");
    ("Referer", "https://nekoweb.org/?" ++ encodeURIComponent
       ("astro-adapter-nekoweb@" ++ version ++ " deployment library (pls no bans)"));
    ("Cookie", "token=" ++ cookie) ].

(** [new NekoAPI(apiKey, logger, cookie)] *)
Definition new_NekoAPI (apiKey : string) (cookie : option string) : NekoAPI :=
  if truthy cookie then
    {| config := {| cfg_apiKey := apiKey; cfg_appName := appName; cfg_headers := [] |};
       ucfg := Some {| cfg_apiKey := ""; cfg_appName := appName;
                       cfg_headers := ucfg_headers (or_empty cookie) |};
       api_csrf := ""; api_site := "" |}
  else
    {| config := {| cfg_apiKey := apiKey; cfg_appName := appName_literal;
                    cfg_headers := [] |};
       ucfg := None;
       api_csrf := ""; api_site := "" |}.

Record BigFileExt := {
  id : string;
  owner : Config
}.

(** [getCSRFToken]: site info through the API-key client, then the token
    through the cookie client; both results are stored on the object. *)
Definition getCSRFToken (w : World) (api : NekoAPI) (uc : Config) : M NekoAPI :=
  ures <- (p <- request (config api) (GetSiteInfo None) (on_csrfSiteInfo w) ;; await p) ;;
  response <- (p <- request uc GetCsrf (on_csrf w) ;; await p) ;;
  ret {| config := config api; ucfg := ucfg api;
         api_csrf := response; api_site := si_domain ures |}.

Definition editFileCSRF (api : NekoAPI) (uc : Config)
    (path content siteName : string) (o : Outcome unit) : M unit :=
  let data := {| pathname := path; content := content;
                 site := siteName; csrf := api_csrf api |} in
  p <- request uc (FileEdit data) o ;; await p.

Definition createBigFile (w : World) (api : NekoAPI) : M BigFileExt :=
  i <- (p <- request (config api) BigCreate (on_create w) ;; await p) ;;
  ret {| id := i; owner := config api |}.

Definition initFileUpload (w : World) (api : NekoAPI) : M BigFileExt :=
  try_catch (createBigFile w api)
            (fun error => emit (ConsoleError error) ;; throw error).

Definition marker_path : string := "/.astro-adapter-nekoweb.html".

Definition marker_content (now : N) : string :=
  "<!--
    This is an auto-generated file created by astro-adapter-nekoweb.

    This file is used to put you on the 'Last Updated' page
    on Nekoweb.

    You can delete this file if you want, but it will come
    back the next time you deploy using astro-adapter-nekoweb.
                
    https://deploy.nekoweb.org/astro
    https://github.com/indiefellas/astro-adapter-nekoweb

    " ++ N_toString now ++ "
-->".

(** [BigFileExt.finalizeUpload].  [let res = this.import()] starts the
    import and keeps its promise; nothing in the body awaits it.  Without a
    cookie client the promise is returned, so the caller's [await] follows
    it (a promise returned from inside [try] is not caught there).  With a
    cookie client the promise is dropped: the program never sees how the
    import ended.  What the host does with a rejection nobody handles is
    not part of the model.  The [catch] logs and does not rethrow. *)
Definition finalizeUpload (w : World) (big : BigFileExt) (api : NekoAPI)
    (siteName : string) (rssFeed rssContent : option string)
  : M (AsyncRet unit) :=
  try_catch
    (res <- request (owner big) (ImportBig (id big)) (on_import w) ;;
     match ucfg api with
     | None =>
         log Warn "Nekoweb Cookie not found. Skipping Recently Updated support..." ;;
         ret (Adopt res)
     | Some uc =>
         api' <- getCSRFToken w api uc ;;
         (if truthy rssFeed && truthy rssContent
          then editFileCSRF api' uc (or_empty rssFeed) (or_empty rssContent)
                 siteName (on_editRss w)
          else ret tt) ;;
         editFileCSRF api' uc marker_path (marker_content (now_marker w))
           siteName (on_editMarker w) ;;
         log Info "Sent cookie request" ;;
         ret (Value tt)
     end)
    (fun error =>
       log Err ("Failed to upload. " ++ error_toString error) ;;
       ret (Value tt)).

Definition tmpBuildDir (e : Env) : Path := (cwd e ++ [".build-temp"])%list.

(** [`${folder.split('/')[0]}.zip`], resolved against the working directory. *)
Definition zipFileName (folder : string) : string :=
  hd "" (split_slash folder) ++ ".zip".

Definition zipPath (e : Env) (folder : string) : Path :=
  (cwd e ++ [zipFileName folder])%list.

(** [tmpBuildDir + `/${folder}`], resolved against the working directory. *)
Definition stageDir (e : Env) (folder : string) : Path :=
  join (cwd e) (".build-temp" ++ "/" ++ folder).

Definition rss_marker (now : N) : string :=
  "<!-- deployed to Nekoweb using astro-adapter-nekoweb on " ++ N_toString now ++ " -->".

(** [join(`/${folder}`, rssFeed)], the pathname on the site. *)
Definition rss_remote (folder rssFeed : string) : string :=
  show_path (join (join [] folder) rssFeed).

(** Lines 254-257 of the hook: a staging directory left by an earlier run
    is removed, then the directory is made afresh. *)
Definition clearStaging (e : Env) : M unit :=
  stale <- fs_existsSync (tmpBuildDir e) ;;
  (if stale then fs_rmSync (tmpBuildDir e) else ret tt) ;;
  fs_mkdirSync (tmpBuildDir e).

(** Lines 254-271: the local part of the hook.  It hands the RSS content
    that was read (if any) to the remote part. *)
Definition stage (rssFeed : option string) (e : Env) (w : World)
    (folder : string) : M (option string) :=
  clearStaging e ;;
  rssContent <-
    (if truthy rssFeed
     then s <- fs_readFileSync (join (outDir e) (or_empty rssFeed)) ;;
          ret (Some (s ++ String "010"%char (rss_marker (now_rss w))))
     else ret None) ;;
  has404 <- fs_existsSync (path404 e) ;;
  (if has404
   then log Info "Found 404.html, renaming it to not_found.html..." ;;
        fs_renameSync (path404 e) (pathNotFound e)
   else ret tt) ;;
  fs_cpSync (outDir e) (stageDir e folder) ;;
  zipDirectory w (tmpBuildDir e) (zipPath e folder) ;;
  log Info ("Compressed " ++ quoted (show_path (outDir e))) ;;
  ret rssContent.

(** Lines 273-287: session, upload, best-effort delete, import and
    metadata, then the removal of the archive and the staging directory. *)
Definition publish (neko : NekoAPI) (siteName rssFeed : option string)
    (e : Env) (w : World) (folder : string) (rssContent : option string)
  : M unit :=
  bigId <- initFileUpload w neko ;;
  log Info ("Created BigFile upload session (ID: " ++ id bigId ++ ")") ;;
  zip <- fs_readFileSync (zipPath e folder) ;;
  (p <- request (owner bigId) (BigAppend (id bigId) zip) (on_append w) ;; await p) ;;
  log Info ("Uploaded " ++ quoted (show_path (outDir e))) ;;
  try_catch
    (p <- request (config neko) (DeletePath folder) (on_delete w) ;; await p)
    (fun _ => ret tt) ;;
  await_async
    (finalizeUpload w bigId neko (or_empty siteName)
       (if truthy rssFeed
        then Some (rss_remote folder (or_empty rssFeed))
        else None)
       rssContent) ;;
  log Info ("Successfully deployed " ++ quoted (show_path (outDir e))) ;;
  fs_unlink (zipPath e folder) ;;
  fs_rmSync (tmpBuildDir e).

(** The [astro:build:done] hook. *)
Definition build_done (args : Options) (e : Env) (w : World) : M unit :=
  if String.eqb (apiKey args) "" then
    log Err "Missing API key. You need to define it so you can deploy your site." ;;
    throw (PlainError "Missing API key")
  else
    let neko := new_NekoAPI (apiKey args) (cookie args) in
    site <- (p <- request (config neko) (GetSiteInfo (domain args)) (on_siteInfo w) ;;
             await p) ;;
    if negb (truthy (si_folder site)) then
      log Err "Missing folder." ;;
      throw (PlainError "Missing folder")
    else
      let folder := or_empty (si_folder site) in
      rssContent <- stage (rssFeed args) e w folder ;;
      publish neko (siteName args) (rssFeed args) e w folder rssContent.

End V3.

(** ** What the two 2.0.3 versions share *)

Definition ends_with (s suffix : string) : bool :=
  let n := String.length s in
  let m := String.length suffix in
  if Nat.ltb n m then false else String.eqb (substring (n - m) m s) suffix.

(** [getRssFile(dir)]: the first [.xml] file met in a depth-first walk, in
    the order [readdirSync] lists the entries.  Any exception of the walk of
    a directory is caught there and gives [undefined] for that directory
    (the [console.error] of that branch is not traced).  [depth] bounds the
    nesting of directories that is followed. *)
Fixpoint getRssFile (depth : nat) (ls : Path -> option (list string)) (fs : FS)
    (dir : Path) : option Path :=
  match depth with
  | O => None
  | S d =>
      match ls dir with
      | None => None
      | Some files =>
          (fix scan (files : list string) : option Path :=
             match files with
             | [] => None
             | file :: rest =>
                 let filePath := (dir ++ [file])%list in
                 match fs filePath with
                 | None => None
                 | Some Dir =>
                     match getRssFile d ls fs filePath with
                     | Some res => Some res
                     | None => scan rest
                     end
                 | Some (File _) =>
                     if ends_with file ".xml" then Some filePath else scan rest
                 end
             end) files
      end
  end.

(** The marker comment of the 2.0.3 versions. *)
Definition deployed_comment (w : World) : string :=
  "<!-- deployed to Nekoweb using @indiefellas/astro-adapter-nekoweb on "
  ++ now_text w ++ " -->".

(** ** Version 2.0.3 on the client library *)

Module V2.

Definition version : string := "2.0.3".

Record Options := {
  apiKey : option string;
  folder : option string;
  cookie : option string
}.

Record NekoAPI := {
  config : Config;
  ucfg : option Config;
  api_csrf : string;
  api_site : string
}.

(** All three names are written in single quotes here. *)
Definition appName_literal : string :=
  "astro-adapter-nekoweb/${version} (https://github.com/indiefellas/astro-adapter-nekoweb)".

Definition ucfg_headers (cookie : string) : Headers :=
  [ ("Authorization", "");
    ("Origin", "https://nekoweb.org");
    ("Host", "nekoweb.org");
    ("User-Agent", "");
    ("Referer", "https://nekoweb.org/?" ++ encodeURIComponent
       ("astro-adapter-nekoweb@" ++ version ++ " deployment library (pls no bans)"));
    ("Cookie", "token=" ++ cookie) ].

Definition new_NekoAPI (apiKey : string) (cookie : option string) : NekoAPI :=
  if truthy cookie then
    {| config := {| cfg_apiKey := apiKey; cfg_appName := appName_literal;
                    cfg_headers := [] |};
       ucfg := Some {| cfg_apiKey := ""; cfg_appName := appName_literal;
                       cfg_headers := ucfg_headers (or_empty cookie) |};
       api_csrf := ""; api_site := "" |}
  else
    {| config := {| cfg_apiKey := apiKey; cfg_appName := appName_literal;
                    cfg_headers := [] |};
       ucfg := None;
       api_csrf := ""; api_site := "" |}.

Record BigFileExt := {
  id : string;
  owner : Config
}.

Definition getCSRFToken (w : World) (api : NekoAPI) (uc : Config) : M NekoAPI :=
  ures <- (p <- request (config api) (GetSiteInfo None) (on_csrfSiteInfo w) ;; await p) ;;
  response <- (p <- request uc GetCsrf (on_csrf w) ;; await p) ;;
  ret {| config := config api; ucfg := ucfg api;
         api_csrf := response; api_site := si_username ures |}.

Definition editFileCSRF (api : NekoAPI) (uc : Config)
    (path content : string) (o : Outcome unit) : M unit :=
  let data := {| pathname := path; content := content;
                 site := api_site api; csrf := api_csrf api |} in
  p <- request uc (FileEdit data) o ;; await p.

Definition createBigFile (w : World) (api : NekoAPI) : M BigFileExt :=
  i <- (p <- request (config api) BigCreate (on_create w) ;; await p) ;;
  ret {| id := i; owner := config api |}.

Definition initFileUpload (w : World) (api : NekoAPI) : M BigFileExt :=
  try_catch (createBigFile w api)
            (fun error => emit (ConsoleError error) ;; throw error).

Definition marker_path : string := "/.astro-adapter.nekoweb.html".

(** [BigFileExt.finalizeUpload] of this version: the import is started and
    not awaited, as in 3.0.0, but the [catch] rethrows after logging. *)
Definition finalizeUpload (w : World) (big : BigFileExt) (api : NekoAPI)
    (rssFile rssContent : option string) : M (AsyncRet unit) :=
  try_catch
    (res <- request (owner big) (ImportBig (id big)) (on_import w) ;;
     match ucfg api with
     | None =>
         log Warn "Nekoweb Cookie not found. Skipping Recently Updated support..." ;;
         ret (Adopt res)
     | Some uc =>
         api' <- getCSRFToken w api uc ;;
         (if truthy rssFile && truthy rssContent
          then editFileCSRF api' uc (or_empty rssFile) (or_empty rssContent)
                 (on_editRss w)
          else ret tt) ;;
         editFileCSRF api' uc marker_path (deployed_comment w) (on_editMarker w) ;;
         log Info "Sent cookie request" ;;
         ret (Value tt)
     end)
    (fun error =>
       log Err ("Failed to upload. " ++ error_toString error) ;;
       throw error).

Definition tmpBuildDir (e : Env) : Path := (cwd e ++ [".build-temp"])%list.

(** [`${folder}.zip`], resolved against the working directory. *)
Definition zipPath (e : Env) (folder : string) : Path :=
  join (cwd e) (folder ++ ".zip").

Definition stageDir (e : Env) (folder : string) : Path :=
  join (cwd e) (".build-temp" ++ "/" ++ folder).

(** The [astro:build:done] hook.  [depth] bounds the walk of [getRssFile]. *)
Definition build_done (depth : nat) (args : Options) (e : Env) (w : World) : M unit :=
  if negb (truthy (apiKey args)) then
    log Err "Missing API key. You need to define it so you can deploy your site." ;;
    throw (PlainError "Missing API key")
  else if negb (truthy (folder args)) then
    log Err "Missing serve folder." ;;
    throw (PlainError "Missing serve directory")
  else
    let folder := or_empty (folder args) in
    let neko := new_NekoAPI (or_empty (apiKey args)) (cookie args) in
    stale <- fs_existsSync (tmpBuildDir e) ;;
    (if stale then fs_rmSync (tmpBuildDir e) else ret tt) ;;
    fs_mkdirSync (tmpBuildDir e) ;;
    rssFile <- (fun fs => (inr (getRssFile depth (readdir w) fs (outDir e)), fs, [])) ;;
    rssContent <-
      match rssFile with
      | Some p => s <- fs_readFileSync p ;; ret (Some (s ++ String "010"%char ""))
      | None => ret None
      end ;;
    has404 <- fs_existsSync (path404 e) ;;
    (if has404
     then log Info "Found 404.html, renaming it to not_found.html..." ;;
          fs_renameSync (path404 e) (pathNotFound e)
     else ret tt) ;;
    fs_cpSync (outDir e) (stageDir e folder) ;;
    zipDirectory w (tmpBuildDir e) (zipPath e folder) ;;
    log Info ("Compressed " ++ quoted (show_path (outDir e))) ;;
    bigId <- initFileUpload w neko ;;
    log Info ("Created BigFile upload session (ID: " ++ id bigId ++ ")") ;;
    zip <- fs_readFileSync (zipPath e folder) ;;
    (p <- request (owner bigId) (BigAppend (id bigId) zip) (on_append w) ;; await p) ;;
    log Info ("Uploaded " ++ quoted (show_path (outDir e))) ;;
    try_catch
      (p <- request (config neko) (DeletePath folder) (on_delete w) ;; await p)
      (fun _ => ret tt) ;;
    await_async
      (finalizeUpload w bigId neko (option_map show_path rssFile) rssContent) ;;
    log Info ("Successfully deployed " ++ quoted (show_path (outDir e))) ;;
    fs_unlink (zipPath e folder) ;;
    fs_rmSync (tmpBuildDir e).

End V2.

(** ** Version 2.0.3 on plain [fetch] *)

Module V2Fetch.

Definition version : string := "2.0.3".

Record Options := {
  apiKey : option string;
  folder : option string;
  cookie : option string
}.

Record HttpResponse := {
  ok : bool;
  status : N;
  statusText : string;
  text : string;                           (* response.text() *)
  json : option (list (string * string))   (* response.json(), [None]: it throws *)
}.

Inductive FetchOutcome :=
| NetworkError (message : string)
| Response (r : HttpResponse).

(** One field per [fetch] of the hook. *)
Record FetchWorld := {
  f_archiver : FS -> string;
  f_readdir : Path -> option (list string);
  f_depth : nat;
  f_create : FetchOutcome;
  f_append : FetchOutcome;
  f_delete : FetchOutcome;
  f_import : FetchOutcome;
  f_siteInfo : FetchOutcome;
  f_csrf : FetchOutcome;
  f_editRss : FetchOutcome;
  f_editMarker : FetchOutcome;
  f_now_text : string
}.

Definition userAgent : string :=
  "astro-adapter-nekoweb/" ++ version
  ++ " (https://github.com/jbcarreon123/astro-adapter-nekoweb)".

(** [getToken(apiKey, cookie)] *)
Definition getToken (apiKey : string) (cookie : option string) : Headers :=
  if truthy cookie then
    [ ("Origin", "https://nekoweb.org");
      ("Host", "nekoweb.org");
      ("User-Agent", userAgent);
      ("Referer", "https://nekoweb.org/?" ++ encodeURIComponent
         ("astro-adapter-nekoweb@" ++ version ++ " deployment library (pls no bans)"));
      ("Cookie", "token=" ++ or_empty cookie) ]
  else
    [ ("User-Agent", userAgent);
      ("Authorization", apiKey) ].

Fixpoint set_header (k v : string) (h : Headers) : Headers :=
  match h with
  | [] => [(k, v)]
  | (k', v') :: rest =>
      if String.eqb k' k then (k', v) :: rest else (k', v') :: set_header k v rest
  end.

(** [{ ...base, ...over }] *)
Definition spread (base over : Headers) : Headers :=
  fold_left (fun acc kv => set_header (fst kv) (snd kv) acc) over base.

(** The description of a response that is not [ok]. *)
Definition http_failure (ep : Endpoint) (r : HttpResponse) : JsError :=
  ApiError ep (status r) (text r).

(** [await fetch(...)]: it rejects only when the network fails; a response
    that is not [ok] is returned like any other.  The trace records the
    first as a rejection and tells an [ok] response from one that is not. *)
Definition fetch (headers : Headers) (r : Request) (o : FetchOutcome) : M HttpResponse :=
  emit (Sent (ViaFetch headers) r) ;;
  match o with
  | NetworkError m =>
      emit (Rejected (endpoint_of r) (PlainError m)) ;; throw (PlainError m)
  | Response resp =>
      emit (if ok resp then Resolved (endpoint_of r)
            else Rejected (endpoint_of r) (http_failure (endpoint_of r) resp)) ;;
      ret resp
  end.

Definition response_json (r : HttpResponse) : M (list (string * string)) :=
  match json r with
  | Some o => ret o
  | None => throw (PlainError "Unexpected token in JSON")
  end.

(** [o[key]] inside a template or a form: a missing field reads
    [undefined]. *)
Definition field (key : string) (o : list (string * string)) : string :=
  match header key o with
  | Some v => v
  | None => "undefined"
  end.

Definition status_line (r : HttpResponse) : string :=
  N_toString (status r) ++ " " ++ statusText r.

Definition getCSRFToken (w : FetchWorld) (token : Headers) : M (string * string) :=
  ures <- fetch token (GetSiteInfo None) (f_siteInfo w) ;;
  username <- response_json ures ;;
  response <- fetch (spread [ ("Origin", "https://nekoweb.org");
                              ("Host", "nekoweb.org");
                              ("Content-Type", "multipart/form-data") ] token)
                GetCsrf (f_csrf w) ;;
  if negb (ok response) then
    throw (PlainError ("Failed to get CSRF token: " ++ status_line response
                       ++ " (" ++ text response ++ ")"))
  else ret (text response, field "username" username).

(** [initFileUpload]: the body of the [try] returns [response.json()]
    without awaiting it, so a failure of the parse passes the [catch]. *)
Definition initFileUpload (w : FetchWorld) (token : Headers)
  : M (list (string * string)) :=
  response <-
    try_catch
      (response <- fetch token BigCreate (f_create w) ;;
       if negb (ok response) then
         throw (PlainError ("Failed to create upload session: "
                            ++ status_line response ++ " - " ++ text response))
       else ret response)
      (fun error => emit (ConsoleError error) ;; throw error) ;;
  response_json response.

Definition uploadFile (w : FetchWorld) (token : Headers) (filePath : Path)
    (bigId : string) : M string :=
  fileBuffer <- fs_readFileSync filePath ;;
  response <- fetch token (BigAppend bigId fileBuffer) (f_append w) ;;
  if negb (ok response) then
    throw (PlainError ("Failed to upload: " ++ status_line response
                       ++ " - " ++ text response))
  else ret (text response).

Definition marker_path : string := ".astro-adapter-nekoweb.html".

Definition deployed_comment (w : FetchWorld) : string :=
  "<!-- deployed to Nekoweb using @indiefellas/astro-adapter-nekoweb on "
  ++ f_now_text w ++ " -->".

(** [finalizeUpload]: the import is awaited and checked before anything
    else, and nothing catches its failure. *)
Definition finalizeUpload (w : FetchWorld) (apiToken token : Headers)
    (bigId : string) (rssFile rssContent : option string) : M unit :=
  response <- fetch apiToken (ImportBig bigId) (f_import w) ;;
  if negb (ok response) then
    throw (PlainError ("Failed to import: " ++ status_line response
                       ++ " (" ++ text response ++ ")"))
  else if negb (truthy (header "Cookie" token)) then
    log Warn "Nekoweb Cookie not found. Skipping Recently Updated support..."
  else
    tok <- getCSRFToken w token ;;
    (if truthy rssFile && truthy rssContent
     then
       resp <- fetch token
                 (FileEdit {| pathname := or_empty rssFile;
                              content := or_empty rssContent;
                              site := snd tok; csrf := fst tok |})
                 (f_editRss w) ;;
       if negb (ok resp) then
         log Err ("Failed to send RSS cookie request: " ++ status_line resp
                  ++ " (" ++ text resp ++ ")")
       else ret tt
     else ret tt) ;;
    resp <- fetch token
              (FileEdit {| pathname := marker_path;
                           content := deployed_comment w;
                           site := snd tok; csrf := fst tok |})
              (f_editMarker w) ;;
    if negb (ok resp) then
      log Err ("Failed to send cookie request: " ++ status_line resp
               ++ " (" ++ text resp ++ ")")
    else log Info "Sent cookie request".

Definition tmpBuildDir (e : Env) : Path := (cwd e ++ [".build-temp"])%list.

Definition zipPath (e : Env) (folder : string) : Path :=
  join (cwd e) (folder ++ ".zip").

Definition stageDir (e : Env) (folder : string) : Path :=
  join (cwd e) (".build-temp" ++ "/" ++ folder).

Definition zipDirectory (w : FetchWorld) (source out : Path) : M unit :=
  fun fs =>
    match fs out with
    | Some Dir => (inl (FsError "EISDIR" out), fs, [])
    | _ => (inr tt, write_node out (File (f_archiver w (subtree source fs))) fs,
            [Fs (WriteFile out)])
    end.

(** The [astro:build:done] hook. *)
Definition build_done (args : Options) (e : Env) (w : FetchWorld) : M unit :=
  if negb (truthy (apiKey args)) then
    log Err "Missing API key. You need to define it so you can deploy your site." ;;
    throw (PlainError "Missing API key")
  else if negb (truthy (folder args)) then
    log Err "Missing serve folder." ;;
    throw (PlainError "Missing serve directory")
  else
    let folder := or_empty (folder args) in
    let token := getToken (or_empty (apiKey args)) (cookie args) in
    let apiToken := getToken (or_empty (apiKey args)) None in
    stale <- fs_existsSync (tmpBuildDir e) ;;
    (if stale then fs_rmSync (tmpBuildDir e) else ret tt) ;;
    fs_mkdirSync (tmpBuildDir e) ;;
    rssFile <- (fun fs => (inr (getRssFile (f_depth w) (f_readdir w) fs (outDir e)),
                           fs, [])) ;;
    rssContent <-
      match rssFile with
      | Some p => s <- fs_readFileSync p ;; ret (Some (s ++ String "010"%char ""))
      | None => ret None
      end ;;
    fs_cpSync (outDir e) (stageDir e folder) ;;
    zipDirectory w (tmpBuildDir e) (zipPath e folder) ;;
    log Info ("Compressed " ++ quoted (show_path (outDir e))) ;;
    bigId <- initFileUpload w apiToken ;;
    log Info ("Created BigFile upload session (ID: " ++ field "id" bigId ++ ")") ;;
    uploadFile w apiToken (zipPath e folder) (field "id" bigId) ;;
    log Info ("Uploaded " ++ quoted (show_path (outDir e))) ;;
    try_catch
      (fetch (spread token [("Content-Type", "application/x-www-form-urlencoded")])
         (DeletePath folder) (f_delete w) ;; ret tt)
      (fun _ => ret tt) ;;
    finalizeUpload w apiToken token (field "id" bigId)
      (option_map show_path rssFile) rssContent ;;
    log Info ("Successfully deployed " ++ quoted (show_path (outDir e))) ;;
    fs_unlink (zipPath e folder) ;;
    fs_rmSync (tmpBuildDir e).

End V2Fetch.

(** ** Reading a trace *)

Definition is_sent (ep : Endpoint) (ev : Event) : bool :=
  match ev with
  | Sent _ r => Endpoint_eqb (endpoint_of r) ep
  | _ => false
  end.

Definition is_resolved (ep : Endpoint) (ev : Event) : bool :=
  match ev with
  | Resolved ep' => Endpoint_eqb ep' ep
  | _ => false
  end.

Definition is_rejected (ep : Endpoint) (ev : Event) : bool :=
  match ev with
  | Rejected ep' _ => Endpoint_eqb ep' ep
  | _ => false
  end.

Definition is_any_sent (ev : Event) : bool :=
  match ev with Sent _ _ => true | _ => false end.

Definition Level_eqb (a b : Level) : bool :=
  match a, b with
  | Info, Info | Warn, Warn | Err, Err => true
  | _, _ => false
  end.

Definition is_log (lvl : Level) (msg : string) (ev : Event) : bool :=
  match ev with
  | Log l m => Level_eqb l lvl && String.eqb m msg
  | _ => false
  end.

Definition is_log_at (lvl : Level) (ev : Event) : bool :=
  match ev with
  | Log l _ => Level_eqb l lvl
  | _ => false
  end.

(** Events that stay on the machine: file-system operations and log lines. *)
Definition is_local (ev : Event) : bool :=
  match ev with
  | Fs _ | Log _ _ => true
  | _ => false
  end.

Definition sent (ep : Endpoint) (tr : Trace) : bool := existsb (is_sent ep) tr.
Definition resolved (ep : Endpoint) (tr : Trace) : bool := existsb (is_resolved ep) tr.
Definition rejected (ep : Endpoint) (tr : Trace) : bool := existsb (is_rejected ep) tr.
Definition logged (lvl : Level) (msg : string) (tr : Trace) : bool :=
  existsb (is_log lvl msg) tr.

(** [guarded P Q tr]: no event satisfying [Q] occurs in [tr] unless an
    event satisfying [P] occurred strictly before it. *)
Fixpoint guarded (P Q : Event -> bool) (tr : Trace) : bool :=
  match tr with
  | [] => true
  | ev :: rest =>
      if Q ev then false
      else if P ev then true
      else guarded P Q rest
  end.

(** [followed P Q tr]: every event satisfying [P] has a later event
    satisfying [Q]. *)
Fixpoint followed (P Q : Event -> bool) (tr : Trace) : bool :=
  match tr with
  | [] => true
  | ev :: rest => (if P ev then existsb Q rest else true) && followed P Q rest
  end.

(** The requests of the upload protocol proper, by endpoint, in order. *)
Definition upload_calls (tr : Trace) : list Endpoint :=
  flat_map (fun ev =>
    match ev with
    | Sent _ r =>
        match endpoint_of r with
        | EpBigCreate | EpBigAppend | EpDelete | EpImport => [endpoint_of r]
        | _ => []
        end
    | _ => []
    end) tr.

(** The forms of the file-edit requests, in order. *)
Definition edit_forms (tr : Trace) : list EditForm :=
  flat_map (fun ev =>
    match ev with
    | Sent _ (FileEdit f) => [f]
    | _ => []
    end) tr.

(** The requests that leave through a cookie-only endpoint, each with the
    configuration of the client that sent it. *)
Definition cookie_requests (tr : Trace) : list (Client * Request) :=
  flat_map (fun ev =>
    match ev with
    | Sent c r =>
        match endpoint_of r with
        | EpCsrf | EpFileEdit => [(c, r)]
        | _ => []
        end
    | _ => []
    end) tr.

(** [quiet_after P Q tr]: once an event satisfying [P] has occurred, no
    event satisfying [Q] occurs any more. *)
Fixpoint quiet_after (P Q : Event -> bool) (tr : Trace) : bool :=
  match tr with
  | [] => true
  | ev :: rest =>
      (if P ev then negb (existsb Q rest) else true) && quiet_after P Q rest
  end.

(** Two log lines of the hook. *)
Definition skip_message : string :=
  "Nekoweb Cookie not found. Skipping Recently Updated support...".

Definition deployed_message (e : Env) : string :=
  "Successfully deployed " ++ quoted (show_path (outDir e)).

(** What the [catch] of [finalizeUpload] logs. *)
Definition upload_failed_message (failure : JsError) : string :=
  "Failed to upload. " ++ error_toString failure.

(** The options of a run with another API key. *)
Definition with_apiKey (k : string) (args : V3.Options) : V3.Options :=
  {| V3.apiKey := k; V3.domain := V3.domain args; V3.cookie := V3.cookie args;
     V3.siteName := V3.siteName args; V3.rssFeed := V3.rssFeed args |}.

(** The configuration the constructor gives the cookie client. *)
Definition cookie_client_config (cookie : string) : Config :=
  {| cfg_apiKey := ""; cfg_appName := V3.appName;
     cfg_headers := V3.ucfg_headers cookie |}.






(** Neither path lies at or below the other. *)
Definition apart (a b : Path) : bool :=
  negb (is_prefix a b) && negb (is_prefix b a).

(** The computation leaves the entry at [p] as it found it. *)
Definition preserves {A} (p : Path) (m : M A) : Prop :=
  forall fs, fs_of (m fs) p = fs p.

(** The file-system changes of the hook outside the build output: the
    removal and creation of the staging directory, the copy into it, and
    the writing and removal of the archive. *)
Definition staging_op (e : Env) (folder : string) (op : FsOp) : Prop :=
  op = RmTree (V3.tmpBuildDir e)
  \/ op = Mkdir (V3.tmpBuildDir e)
  \/ op = CopyTree (outDir e) (V3.stageDir e folder)
  \/ op = WriteFile (V3.zipPath e folder)
  \/ op = Unlink (V3.zipPath e folder).

(** A file-system operation. *)
Definition is_fs (ev : Event) : bool :=
  match ev with Fs _ => true | _ => false end.

(** The form of the marker edit. *)
Definition marker_form (w : World) (siteName token : string) : EditForm :=
  {| pathname := V3.marker_path;
     content := V3.marker_content (now_marker w);
     site := siteName;
     csrf := token |}.


(** The string holds no slash. *)
Fixpoint no_slash (s : string) : bool :=
  match s with
  | EmptyString => true
  | String c rest => negb (Ascii.eqb c "/"%char) && no_slash rest
  end.

(** Every event a computation records satisfies [P], whatever the file
    system it starts from. *)
Definition every_event {A} (P : Event -> Prop) (m : M A) : Prop :=
  forall fs, Forall P (trace_of (m fs)).

(** The calls of the [fetch] version that are made with the API key when a
    cookie is configured. *)
Definition by_api_key (cookie : option string) (ep : Endpoint) : bool :=
  match ep with
  | EpBigCreate | EpBigAppend | EpImport => true
  | _ => negb (truthy cookie)
  end.

(** The credentials of a request of the [fetch] version. *)
Definition fetch_credentials (args : V2Fetch.Options) (ev : Event) : Prop :=
  match ev with
  | Sent (ViaFetch h) r =>
      let key := by_api_key (V2Fetch.cookie args) (endpoint_of r) in
      header "Authorization" h
      = (if key then Some (or_empty (V2Fetch.apiKey args)) else None)
      /\ header "Cookie" h
         = (if key then None
            else Some ("token=" ++ or_empty (V2Fetch.cookie args))%string)
  | Sent (ViaLibrary _) _ => False
  | _ => True
  end.

(** What the [fetch] version logs for an edit the server refused. *)
Definition refused_edit_message (what : string) (r : V2Fetch.HttpResponse) : string :=
  ("Failed to send " ++ what ++ ": " ++ V2Fetch.status_line r
   ++ " (" ++ V2Fetch.text r ++ ")")%string.

(** ** Sample inputs

    A small project: the site was built into [/proj/dist], which holds an
    index page, a [404.html] and an RSS feed; the build runs in [/proj]. *)

Definition demo_fs : FS :=
  fun p =>
    if path_eqb p ["proj"] then Some Dir
    else if path_eqb p ["proj"; "dist"] then Some Dir
    else if path_eqb p ["proj"; "dist"; "index.html"] then Some (File "<html></html>")
    else if path_eqb p ["proj"; "dist"; "404.html"] then Some (File "not here")
    else if path_eqb p ["proj"; "dist"; "rss.xml"] then Some (File "<rss/>")
    else None.


Definition demo_env : Env := {| cwd := ["proj"]; outDir := ["proj"; "dist"] |}.

Definition demo_site : SiteInfo :=
  {| si_username := "me"; si_domain := "me.nekoweb.org"; si_folder := Some "build" |}.

(** What [readdirSync] lists for the build output. *)
Definition demo_readdir (p : Path) : option (list string) :=
  if path_eqb p ["proj"; "dist"] then Some ["index.html"; "404.html"; "rss.xml"]
  else None.

(** A server that answers the six calls named by the arguments as given
    and every other call with success. *)
Definition demo_world (append delete import : Outcome unit) (csrf : Outcome string)
    (editRss editMarker : Outcome unit) : World :=
  {| archiver := fun _ => "PK";
     on_siteInfo := Success demo_site;
     on_create := Success "session-1";
     on_append := append;
     on_delete := delete;
     on_import := import;
     on_csrfSiteInfo := Success demo_site;
     on_csrf := csrf;
     on_editRss := editRss;
     on_editMarker := editMarker;
     now_rss := 1700000000000%N;
     now_marker := 1700000000001%N;
     now_text := "Tue Nov 14 2023 22:13:20 GMT+0000";
     readdir := demo_readdir |}.

Definition world_ok : World :=
  demo_world (Success tt) (Success tt) (Success tt) (Success "csrf-1")
    (Success tt) (Success tt).

Definition args_cookie : V3.Options :=
  {| V3.apiKey := "KEY"; V3.domain := None; V3.cookie := Some "COOKIE";
     V3.siteName := Some "me"; V3.rssFeed := Some "rss.xml" |}.

Definition args_no_cookie : V3.Options :=
  {| V3.apiKey := "KEY"; V3.domain := None; V3.cookie := None;
     V3.siteName := None; V3.rssFeed := None |}.

(** A server that accepts everything but the import. *)
Definition world_import_fails : World :=
  demo_world (Success tt) (Success tt) (Failure 500 "import failed")
    (Success "csrf-1") (Success tt) (Success tt).

(** A server that accepts everything but the CSRF token request. *)
Definition world_csrf_fails : World :=
  demo_world (Success tt) (Success tt) (Success tt) (Failure 401 "bad cookie")
    (Success tt) (Success tt).

Definition v2_args : V2.Options :=
  {| V2.apiKey := Some "KEY"; V2.folder := Some "build"; V2.cookie := Some "COOKIE" |}.

Definition fetch_args : V2Fetch.Options :=
  {| V2Fetch.apiKey := Some "KEY"; V2Fetch.folder := Some "build";
     V2Fetch.cookie := Some "COOKIE" |}.

Definition ok_response (text : string) (json : option (list (string * string)))
  : V2Fetch.FetchOutcome :=
  V2Fetch.Response {| V2Fetch.ok := true; V2Fetch.status := 200%N;
                      V2Fetch.statusText := "OK"; V2Fetch.text := text;
                      V2Fetch.json := json |}.

Definition refused_response (status : N) (text : string) : V2Fetch.FetchOutcome :=
  V2Fetch.Response {| V2Fetch.ok := false; V2Fetch.status := status;
                      V2Fetch.statusText := "Refused"; V2Fetch.text := text;
                      V2Fetch.json := None |}.

(** A server for the [fetch] version that answers the import and the CSRF
    request as given and accepts the rest. *)
Definition fetch_world (import csrf : V2Fetch.FetchOutcome) : V2Fetch.FetchWorld :=
  {| V2Fetch.f_archiver := fun _ => "PK";
     V2Fetch.f_readdir := demo_readdir;
     V2Fetch.f_depth := 8;
     V2Fetch.f_create := ok_response "" (Some [("id", "session-1")]);
     V2Fetch.f_append := ok_response "" None;
     V2Fetch.f_delete := ok_response "" None;
     V2Fetch.f_import := import;
     V2Fetch.f_siteInfo := ok_response "" (Some [("username", "me")]);
     V2Fetch.f_csrf := csrf;
     V2Fetch.f_editRss := ok_response "" None;
     V2Fetch.f_editMarker := ok_response "" None;
     V2Fetch.f_now_text := "Tue Nov 14 2023 22:13:20 GMT+0000" |}.

(** * Proofs *)

Local Open Scope list_scope.

(** ** Traces *)

Lemma guarded_spec (P Q : Event -> bool) (tr : Trace) :
  guarded P Q tr = true ->
  forall t1 ev t2, tr = (t1 ++ ev :: t2)%list -> Q ev = true -> existsb P t1 = true.
Proof.
  induction tr as [|x tr IH]; intros G t1 ev t2 E HQ.
  - destruct t1; discriminate.
  - destruct t1 as [|y t1]; simpl in E; injection E as <- ->.
    + simpl in G. rewrite HQ in G. discriminate.
    + simpl in G. simpl.
      destruct (Q x); [discriminate|].
      destruct (P x); [reflexivity|].
      simpl. eapply IH; eauto.
Qed.

Lemma followed_spec (P Q : Event -> bool) (tr : Trace) :
  followed P Q tr = true ->
  forall t1 ev t2, tr = (t1 ++ ev :: t2)%list -> P ev = true -> existsb Q t2 = true.
Proof.
  induction tr as [|x tr IH]; intros G t1 ev t2 E HP.
  - destruct t1; discriminate.
  - simpl in G. apply andb_prop in G as [G1 G2].
    destruct t1 as [|y t1]; simpl in E; injection E as <- ->.
    + rewrite HP in G1. exact G1.
    + eapply IH; eauto.
Qed.

Lemma guarded_skip (P Q : Event -> bool) (t1 t2 : Trace) :
  existsb P t1 = false -> existsb Q t1 = false ->
  guarded P Q (t1 ++ t2) = guarded P Q t2.
Proof.
  induction t1 as [|x t1 IH]; simpl; intros HP HQ; [reflexivity|].
  apply orb_false_elim in HP as [HP1 HP2].
  apply orb_false_elim in HQ as [HQ1 HQ2].
  rewrite HQ1, HP1. auto.
Qed.

Lemma followed_skip (P Q : Event -> bool) (t1 t2 : Trace) :
  existsb P t1 = false ->
  followed P Q (t1 ++ t2) = followed P Q t2.
Proof.
  induction t1 as [|x t1 IH]; simpl; intros HP; [reflexivity|].
  apply orb_false_elim in HP as [HP1 HP2].
  rewrite HP1. simpl. auto.
Qed.

(** A predicate on events is remote when no local event satisfies it. *)
Definition remote_only (P : Event -> bool) : Prop :=
  forall ev, is_local ev = true -> P ev = false.

Lemma remote_only_sent ep : remote_only (is_sent ep).
Proof. intros [] H; simpl in *; congruence. Qed.

Lemma remote_only_resolved ep : remote_only (is_resolved ep).
Proof. intros [] H; simpl in *; congruence. Qed.

Lemma remote_only_rejected ep : remote_only (is_rejected ep).
Proof. intros [] H; simpl in *; congruence. Qed.

Lemma remote_only_any_sent : remote_only is_any_sent.
Proof. intros [] H; simpl in *; congruence. Qed.

Lemma local_silent (P : Event -> bool) (t : Trace) :
  remote_only P -> forallb is_local t = true -> existsb P t = false.
Proof.
  intros R. induction t as [|x t IH]; simpl; intros H; [reflexivity|].
  apply andb_prop in H as [H1 H2].
  rewrite (R x H1). simpl. auto.
Qed.

Lemma flat_map_local {A} (f : Event -> list A) (t : Trace) :
  (forall ev, is_local ev = true -> f ev = []) ->
  forallb is_local t = true -> flat_map f t = [].
Proof.
  intros R. induction t as [|x t IH]; simpl; intros H; [reflexivity|].
  apply andb_prop in H as [H1 H2].
  rewrite (R x H1). simpl. auto.
Qed.



Lemma edit_forms_app t1 t2 :
  edit_forms (t1 ++ t2) = (edit_forms t1 ++ edit_forms t2)%list.
Proof. apply flat_map_app. Qed.

Lemma edit_forms_local t : forallb is_local t = true -> edit_forms t = [].
Proof. apply flat_map_local. intros [] H; simpl in *; congruence. Qed.

Lemma cookie_requests_app t1 t2 :
  cookie_requests (t1 ++ t2) = (cookie_requests t1 ++ cookie_requests t2)%list.
Proof. apply flat_map_app. Qed.

Lemma cookie_requests_local t : forallb is_local t = true -> cookie_requests t = [].
Proof. apply flat_map_local. intros [] H; simpl in *; congruence. Qed.

Lemma result_of_mk {A} (r : Result A) (fs : FS) (t : Trace) :
  result_of (r, fs, t) = r.
Proof. reflexivity. Qed.

Lemma fs_of_mk {A} (r : Result A) (fs : FS) (t : Trace) : fs_of (r, fs, t) = fs.
Proof. reflexivity. Qed.

Lemma trace_of_mk {A} (r : Result A) (fs : FS) (t : Trace) : trace_of (r, fs, t) = t.
Proof. reflexivity. Qed.

Ltac in_cases H :=
  simpl in H;
  repeat (destruct H as [H|H];
          [try discriminate; try (injection H; intros; subst; try reflexivity)|]);
  try contradiction.


(** ** The shape of a run of version 3.0.0 *)

Ltac break_match :=
  match goal with
  | |- context [match ?x with _ => _ end] =>
      lazymatch x with
      | context [match _ with _ => _ end] => fail
      | _ => destruct x eqn:?
      end
  end.

Ltac unfold_run :=
  unfold V3.stage, V3.clearStaging, V3.publish, V3.initFileUpload,
    V3.createBigFile, V3.finalizeUpload, V3.getCSRFToken, V3.editFileCSRF,
    await_async, try_catch, request, await, log, emit, ret, throw, bind,
    fs_existsSync, fs_rmSync, fs_mkdirSync, fs_readFileSync, fs_renameSync,
    fs_cpSync, fs_unlink, zipDirectory, trace_of, result_of, fs_of.

Ltac all_cases := unfold_run; repeat (simpl; break_match); simpl.

(** The first request of every run that has an API key. *)
Definition ask_site (args : V3.Options) : Event :=
  Sent (ViaLibrary (V3.config (V3.new_NekoAPI (V3.apiKey args) (V3.cookie args))))
       (GetSiteInfo (V3.domain args)).

Lemma build_done_run (args : V3.Options) (e : Env) (w : World) (fs : FS) :
  V3.build_done args e w fs =
  if String.eqb (V3.apiKey args) "" then
    (inl (PlainError "Missing API key"), fs,
     [Log Err "Missing API key. You need to define it so you can deploy your site."])
  else
    match on_siteInfo w with
    | Failure st body =>
        (inl (ApiError EpSiteInfo st body), fs,
         [ask_site args; Rejected EpSiteInfo (ApiError EpSiteInfo st body)])
    | Success site =>
        if negb (truthy (si_folder site)) then
          (inl (PlainError "Missing folder"), fs,
           [ask_site args; Resolved EpSiteInfo; Log Err "Missing folder."])
        else
          let folder := or_empty (si_folder site) in
          let s := V3.stage (V3.rssFeed args) e w folder fs in
          match result_of s with
          | inl err => (inl err, fs_of s, ask_site args :: Resolved EpSiteInfo :: trace_of s)
          | inr rc =>
              let p := V3.publish (V3.new_NekoAPI (V3.apiKey args) (V3.cookie args))
                         (V3.siteName args) (V3.rssFeed args) e w folder rc (fs_of s) in
              (result_of p, fs_of p,
               ask_site args :: Resolved EpSiteInfo :: (trace_of s ++ trace_of p)%list)
          end
    end.
Proof.
  unfold V3.build_done, ask_site.
  destruct (String.eqb (V3.apiKey args) ""); [reflexivity|].
  cbv zeta. unfold bind at 1. unfold bind at 1.
  unfold request, await, emit, ret, throw, bind at 1; simpl.
  destruct (on_siteInfo w) as [site|st body]; simpl; [|reflexivity].
  unfold bind. simpl.
  destruct (negb (truthy (si_folder site))); simpl; [reflexivity|].
  unfold result_of, fs_of, trace_of.
  destruct (V3.stage _ _ _ _ fs) as [[[err|rc] fs1] t1]; [reflexivity|].
  simpl.
  destruct (V3.publish _ _ _ _ _ _ _ fs1) as [[r fs2] t2]. reflexivity.
Qed.

Lemma stage_local rf e w folder fs :
  forallb is_local (trace_of (V3.stage rf e w folder fs)) = true.
Proof. all_cases; reflexivity. Qed.

(** Splits a statement about a run of the hook into its five ways of
    ending: no key, no site info, no folder, a failed staging, and a run
    that reached the remote part. *)
Ltac run_cases args e w fs :=
  rewrite (build_done_run args e w fs);
  destruct (String.eqb (V3.apiKey args) "") eqn:Hkey;
  [ | destruct (on_siteInfo w) as [site|st body] eqn:Hsite;
      [ destruct (negb (truthy (si_folder site))) eqn:Hfolder;
        [ | cbv zeta;
            apply negb_false_iff in Hfolder;
            pose proof (stage_local (V3.rssFeed args) e w
                          (or_empty (si_folder site)) fs) as Hlocal;
            destruct (result_of (V3.stage (V3.rssFeed args) e w
                          (or_empty (si_folder site)) fs)) as [err|rc] eqn:Hstage ]
      | ] ];
  rewrite ?result_of_mk, ?fs_of_mk, ?trace_of_mk.



Lemma local_not_in (ev : Event) (t : Trace) :
  is_local ev = false -> forallb is_local t = true -> ~ In ev t.
Proof.
  intros H F I. rewrite forallb_forall in F. apply F in I. congruence.
Qed.

(** ** The order of the upload calls *)





Lemma quiet_after_spec (P Q : Event -> bool) (tr : Trace) :
  quiet_after P Q tr = true ->
  forall t1 ev t2, tr = t1 ++ ev :: t2 -> P ev = true -> existsb Q t2 = false.
Proof.
  induction tr as [|x tr IH]; intros G t1 ev t2 E HP.
  - destruct t1; discriminate.
  - simpl in G. apply andb_prop in G as [G1 G2].
    destruct t1 as [|y t1]; simpl in E; injection E as <- ->.
    + rewrite HP in G1. apply negb_true_iff in G1. exact G1.
    + eapply IH; eauto.
Qed.

Lemma quiet_after_skip (P Q : Event -> bool) (t1 t2 : Trace) :
  existsb P t1 = false ->
  quiet_after P Q (t1 ++ t2) = quiet_after P Q t2.
Proof.
  induction t1 as [|x t1 IH]; simpl; intros HP; [reflexivity|].
  apply orb_false_elim in HP as [HP1 HP2].
  rewrite HP1. simpl. auto.
Qed.

Lemma quiet_after_none (P Q : Event -> bool) (t : Trace) :
  existsb P t = false -> quiet_after P Q t = true.
Proof.
  induction t as [|x t IH]; simpl; intros H; [reflexivity|].
  apply orb_false_elim in H as [H1 H2]. rewrite H1. simpl. auto.
Qed.

(** ** A failed append *)

Lemma publish_append_failure neko sn rf e w folder rc fs err :
  let r := V3.publish neko sn rf e w folder rc fs in
  In (Rejected EpBigAppend err) (trace_of r) ->
  result_of r = inl err
  /\ (exists st body, err = ApiError EpBigAppend st body)
  /\ sent EpImport (trace_of r) = false
  /\ sent EpCsrf (trace_of r) = false
  /\ sent EpFileEdit (trace_of r) = false
  /\ quiet_after (is_rejected EpBigAppend) is_any_sent (trace_of r) = true.
Proof.
  all_cases; intros HIn; in_cases HIn;
    repeat split; try reflexivity; eexists; eexists; reflexivity.
Qed.

(** C4.  In every run in which the append is seen to fail, the run ends
    with that very error, which is the error of the append step; no import,
    CSRF or file-edit request leaves in the run, and no request at all
    leaves after the failure. *)
Theorem append_failure_stops_run (args : V3.Options) (e : Env) (w : World) (fs : FS)
    (failure : JsError) :
  let r := V3.build_done args e w fs in
  In (Rejected EpBigAppend failure) (trace_of r) ->
  result_of r = inl failure
  /\ (exists st body, failure = ApiError EpBigAppend st body)
  /\ sent EpImport (trace_of r) = false
  /\ sent EpCsrf (trace_of r) = false
  /\ sent EpFileEdit (trace_of r) = false
  /\ (forall t1 t2, trace_of r = t1 ++ Rejected EpBigAppend failure :: t2 ->
        existsb is_any_sent t2 = false).
Proof.
  cbv zeta. intros HIn.
  assert (G :
    result_of (V3.build_done args e w fs) = inl failure
    /\ (exists st body, failure = ApiError EpBigAppend st body)
    /\ sent EpImport (trace_of (V3.build_done args e w fs)) = false
    /\ sent EpCsrf (trace_of (V3.build_done args e w fs)) = false
    /\ sent EpFileEdit (trace_of (V3.build_done args e w fs)) = false
    /\ quiet_after (is_rejected EpBigAppend) is_any_sent
         (trace_of (V3.build_done args e w fs)) = true).
  { revert HIn. run_cases args e w fs; unfold ask_site; intros HIn.
    - in_cases HIn.
    - in_cases HIn.
    - destruct HIn as [HIn|[HIn|HIn]]; try discriminate.
      exfalso. revert HIn. apply local_not_in; [reflexivity|exact Hlocal].
    - destruct HIn as [HIn|[HIn|HIn]]; try discriminate.
      apply in_app_or in HIn as [HIn|HIn];
        [exfalso; revert HIn; apply local_not_in; [reflexivity|exact Hlocal]|].
      apply publish_append_failure in HIn as (P1 & P2 & P3 & P4 & P5 & P6).
      unfold sent in *. simpl.
      rewrite !existsb_app, P3, P4, P5.
      rewrite !(local_silent _ _ (remote_only_sent _) Hlocal).
      rewrite (quiet_after_skip _ _ _ _
                 (local_silent _ _ (remote_only_rejected EpBigAppend) Hlocal)).
      repeat split; auto.
    - in_cases HIn.
  }
  destruct G as (G1 & G2 & G3 & G4 & G5 & G6).
  repeat split; auto.
  intros t1 t2 E. eapply (quiet_after_spec _ _ _ G6); eauto.
Qed.

(** The theorem at a run whose append the server refuses. *)
Lemma append_failure_witness :
  let r := V3.build_done args_cookie demo_env
             (demo_world (Failure 413 "too large") (Success tt) (Success tt)
                (Success "csrf-1") (Success tt) (Success tt)) demo_fs in
  result_of r = inl (ApiError EpBigAppend 413 "too large")
  /\ sent EpImport (trace_of r) = false.
Proof.
  cbv zeta.
  pose proof (append_failure_stops_run args_cookie demo_env
             (demo_world (Failure 413 "too large") (Success tt) (Success tt)
                (Success "csrf-1") (Success tt) (Success tt)) demo_fs
             (ApiError EpBigAppend 413 "too large")) as H.
  cbv zeta in H.
  destruct H as (H1 & _ & H3 & _).
  - vm_compute. tauto.
  - split; assumption.
Defined.

Ltac find_in := simpl; repeat (first [ left; reflexivity | right ]).

(** ** A run without a cookie *)

Lemma stage_no_error_log rf e w folder fs :
  existsb (is_log_at Err) (trace_of (V3.stage rf e w folder fs)) = false.
Proof. all_cases; reflexivity. Qed.

Lemma new_NekoAPI_no_cookie k c :
  truthy c = false -> V3.ucfg (V3.new_NekoAPI k c) = None.
Proof. intros H. unfold V3.new_NekoAPI. rewrite H. reflexivity. Qed.

Lemma publish_no_cookie neko sn rf e w folder rc fs :
  V3.ucfg neko = None ->
  let r := V3.publish neko sn rf e w folder rc fs in
  sent EpCsrf (trace_of r) = false
  /\ sent EpFileEdit (trace_of r) = false
  /\ (resolved EpImport (trace_of r) = true ->
      result_of r = inr tt
      /\ In (Log Warn skip_message) (trace_of r)
      /\ In (Log Info (deployed_message e)) (trace_of r)
      /\ existsb (is_log_at Err) (trace_of r) = false).
Proof.
  intros Hu. unfold_run. rewrite Hu.
  repeat (simpl; break_match); simpl;
    (split; [reflexivity|]); (split; [reflexivity|]); intros HR; try discriminate;
    repeat split; try reflexivity; find_in.
Qed.

(** C5.  In every run without a cookie no CSRF request and no file-edit
    request leaves; and when the import of such a run is seen to succeed,
    the run returns normally, having logged the warning that the metadata
    step is skipped and the line that reports the deployment, and no error
    line. *)
Theorem no_cookie_no_metadata (args : V3.Options) (e : Env) (w : World) (fs : FS) :
  truthy (V3.cookie args) = false ->
  let r := V3.build_done args e w fs in
  sent EpCsrf (trace_of r) = false
  /\ sent EpFileEdit (trace_of r) = false
  /\ (resolved EpImport (trace_of r) = true ->
      result_of r = inr tt
      /\ In (Log Warn skip_message) (trace_of r)
      /\ In (Log Info (deployed_message e)) (trace_of r)
      /\ existsb (is_log_at Err) (trace_of r) = false).
Proof.
  intros Hc. cbv zeta.
  run_cases args e w fs; unfold ask_site, sent, resolved.
  - repeat split; try reflexivity; discriminate.
  - repeat split; try reflexivity; discriminate.
  - simpl. rewrite !(local_silent _ _ (remote_only_sent _) Hlocal).
    rewrite (local_silent _ _ (remote_only_resolved EpImport) Hlocal).
    repeat split; try reflexivity; discriminate.
  - destruct (publish_no_cookie (V3.new_NekoAPI (V3.apiKey args) (V3.cookie args))
                (V3.siteName args) (V3.rssFeed args) e w (or_empty (si_folder site))
                rc (fs_of (V3.stage (V3.rssFeed args) e w (or_empty (si_folder site)) fs))
                (new_NekoAPI_no_cookie _ _ Hc))
      as (P1 & P2 & P3).
    unfold sent, resolved in *. simpl.
    rewrite !existsb_app.
    rewrite !(local_silent _ _ (remote_only_sent _) Hlocal).
    rewrite (local_silent _ _ (remote_only_resolved EpImport) Hlocal).
    rewrite (stage_no_error_log (V3.rssFeed args) e w (or_empty (si_folder site)) fs).
    simpl. rewrite P1, P2.
    repeat split; try reflexivity;
      destruct (P3 H) as (Q1 & Q2 & Q3 & Q4); auto;
      right; right; apply in_or_app; right; assumption.
  - repeat split; try reflexivity; discriminate.
Qed.

(** The theorem at a run without a cookie against a server that accepts
    every call. *)
Lemma no_cookie_witness :
  let r := V3.build_done args_no_cookie demo_env world_ok demo_fs in
  sent EpCsrf (trace_of r) = false
  /\ sent EpFileEdit (trace_of r) = false
  /\ result_of r = inr tt
  /\ In (Log Warn skip_message) (trace_of r).
Proof.
  cbv zeta.
  destruct (no_cookie_no_metadata args_no_cookie demo_env world_ok demo_fs eq_refl)
    as (H1 & H2 & H3).
  destruct (H3 eq_refl) as (H4 & H5 & _).
  repeat split; assumption.
Defined.

(** ** What staging reads for the RSS feed *)

Lemma append_truthy (s : string) (c : ascii) (t : string) :
  truthy (Some (s ++ String c t)%string) = true.
Proof. destruct s; reflexivity. Qed.

Lemma write_dir_file (q p : Path) (g : FS) (s : string) :
  write_node q Dir g p = Some (File s) -> g p = Some (File s).
Proof. unfold write_node. destruct (path_eqb q p); [discriminate|auto]. Qed.

Lemma rm_tree_some (q p : Path) (g : FS) (n : Node) :
  rm_tree q g p = Some n -> g p = Some n.
Proof. unfold rm_tree. destruct (is_prefix q p); [discriminate|auto]. Qed.

Lemma stage_rss_content rf e w folder fs rc :
  result_of (V3.stage rf e w folder fs) = inr rc ->
  truthy rf = true ->
  exists s,
    fs (join (outDir e) (or_empty rf)) = Some (File s)
    /\ rc = Some (s ++ String "010"%char (V3.rss_marker (now_rss w)))%string.
Proof.
  intros H Hrf. revert H. unfold_run. rewrite Hrf.
  repeat (simpl; break_match); simpl; intros H; try discriminate;
    injection H as <-; eexists; split; try reflexivity;
    eauto using write_dir_file, rm_tree_some.
Qed.

Lemma stage_no_rss rf e w folder fs rc :
  result_of (V3.stage rf e w folder fs) = inr rc ->
  truthy rf = false -> rc = None.
Proof.
  intros H Hrf. revert H. unfold_run. rewrite Hrf.
  repeat (simpl; break_match); simpl; intros H; try discriminate;
    injection H as <-; reflexivity.
Qed.

(** ** A refused RSS edit *)

Lemma new_NekoAPI_cookie k c :
  truthy c = true -> exists uc, V3.ucfg (V3.new_NekoAPI k c) = Some uc.
Proof. intros H. unfold V3.new_NekoAPI. rewrite H. eexists. reflexivity. Qed.

Lemma publish_rss_edit_failure neko uc sn rf e w folder rc fs st body :
  V3.ucfg neko = Some uc ->
  truthy rf = true ->
  truthy rc = true ->
  on_editRss w = Failure st body ->
  let r := V3.publish neko sn rf e w folder rc fs in
  sent EpFileEdit (trace_of r) = true ->
  result_of r = inr tt
  /\ edit_forms (trace_of r) =
       [ {| pathname := V3.rss_remote folder (or_empty rf);
            content := or_empty rc;
            site := or_empty sn;
            csrf := match on_csrf w with Success t => t | Failure _ _ => "" end |} ]
  /\ quiet_after (is_rejected EpFileEdit) is_any_sent (trace_of r) = true
  /\ In (Log Err (upload_failed_message (ApiError EpFileEdit st body))) (trace_of r)
  /\ In (Log Info (deployed_message e)) (trace_of r).
Proof.
  intros Hu Hrf Hrc He.
  destruct rc as [c|]; [|discriminate]. simpl in Hrc.
  unfold_run. rewrite Hu, Hrf, He.
  repeat (simpl; rewrite ?Hrc; break_match); simpl; intros HS; try discriminate;
    repeat split; try reflexivity; find_in.
Qed.

(** C9.  In every run with a cookie and an RSS feed in which the RSS edit
    is refused and a file-edit request left: the run returns normally; the
    RSS edit is the only file-edit request of the run, so the marker edit
    is not attempted (no request at all leaves after the rejection); the
    error is logged; and the run goes on to report the deployment. *)
Theorem rss_edit_failure_absorbed (args : V3.Options) (e : Env) (w : World) (fs : FS)
    (code : N) (message : string) :
  truthy (V3.cookie args) = true ->
  truthy (V3.rssFeed args) = true ->
  on_editRss w = Failure code message ->
  let r := V3.build_done args e w fs in
  sent EpFileEdit (trace_of r) = true ->
  result_of r = inr tt
  /\ (exists f s, edit_forms (trace_of r) = [f]
        /\ content f = (s ++ String "010"%char (V3.rss_marker (now_rss w)))%string)
  /\ (forall t1 failure t2, trace_of r = t1 ++ Rejected EpFileEdit failure :: t2 ->
        existsb is_any_sent t2 = false)
  /\ In (Log Err (upload_failed_message (ApiError EpFileEdit code message))) (trace_of r)
  /\ In (Log Info (deployed_message e)) (trace_of r).
Proof.
  intros Hc Hrf He. cbv zeta.
  assert (G : sent EpFileEdit (trace_of (V3.build_done args e w fs)) = true ->
    result_of (V3.build_done args e w fs) = inr tt
    /\ (exists f s, edit_forms (trace_of (V3.build_done args e w fs)) = [f]
        /\ content f = (s ++ String "010"%char (V3.rss_marker (now_rss w)))%string)
    /\ quiet_after (is_rejected EpFileEdit) is_any_sent
         (trace_of (V3.build_done args e w fs)) = true
    /\ In (Log Err (upload_failed_message (ApiError EpFileEdit code message)))
         (trace_of (V3.build_done args e w fs))
    /\ In (Log Info (deployed_message e)) (trace_of (V3.build_done args e w fs))).
  { run_cases args e w fs; unfold ask_site, sent; intros HS; try discriminate.
    - simpl in HS. rewrite (local_silent _ _ (remote_only_sent _) Hlocal) in HS.
      discriminate.
    - simpl in HS. rewrite existsb_app in HS.
      rewrite (local_silent _ _ (remote_only_sent _) Hlocal) in HS. simpl in HS.
      destruct (new_NekoAPI_cookie (V3.apiKey args) _ Hc) as [uc Hu].
      destruct (stage_rss_content _ _ _ _ _ _ Hstage Hrf) as (s & _ & Hrc).
      assert (Hrct : truthy rc = true) by (subst rc; apply append_truthy).
      destruct (publish_rss_edit_failure _ uc (V3.siteName args) _ e w
                  (or_empty (si_folder site)) rc
                  (fs_of (V3.stage (V3.rssFeed args) e w (or_empty (si_folder site)) fs))
                  code message Hu Hrf Hrct He HS)
        as (P1 & P2 & P3 & P4 & P5).
      simpl. rewrite edit_forms_app, (edit_forms_local _ Hlocal), P2.
      rewrite (quiet_after_skip _ _ _ _
                 (local_silent _ _ (remote_only_rejected EpFileEdit) Hlocal)).
      repeat split; auto.
      + eexists. exists s. split; [reflexivity|]. subst rc. reflexivity.
      + right; right; apply in_or_app; right; assumption.
      + right; right; apply in_or_app; right; assumption.
  }
  intros HS. destruct (G HS) as (G1 & G2 & G3 & G4 & G5).
  repeat split; auto.
  intros t1 failure t2 E. eapply (quiet_after_spec _ _ _ G3); eauto.
Qed.

(** The theorem at a run whose RSS edit the server refuses. *)
Lemma rss_edit_failure_witness :
  let r := V3.build_done args_cookie demo_env
             (demo_world (Success tt) (Success tt) (Success tt) (Success "csrf-1")
                (Failure 403 "forbidden") (Success tt)) demo_fs in
  result_of r = inr tt /\ length (edit_forms (trace_of r)) = 1.
Proof.
  cbv zeta.
  destruct (rss_edit_failure_absorbed args_cookie demo_env
             (demo_world (Success tt) (Success tt) (Success tt) (Success "csrf-1")
                (Failure 403 "forbidden") (Success tt)) demo_fs 403%N "forbidden"
             eq_refl eq_refl eq_refl eq_refl)
    as (H1 & (f & s & H2 & _) & _).
  split; [exact H1|]. rewrite H2. reflexivity.
Defined.

(** ** A refused import *)

Lemma publish_import_unobserved neko uc sn rf e w folder rc fs :
  V3.ucfg neko = Some uc ->
  let r := V3.publish neko sn rf e w folder rc fs in
  sent EpImport (trace_of r) = true ->
  result_of r = inr tt
  /\ In (Log Info (deployed_message e)) (trace_of r)
  /\ resolved EpImport (trace_of r) = false
  /\ rejected EpImport (trace_of r) = false
  /\ followed (is_sent EpImport) (is_sent EpSiteInfo) (trace_of r) = true
  /\ (forall si, on_csrfSiteInfo w = Success si -> sent EpCsrf (trace_of r) = true)
  /\ (forall si tok, on_csrfSiteInfo w = Success si -> on_csrf w = Success tok ->
        sent EpFileEdit (trace_of r) = true).
Proof.
  intros Hu. unfold_run. rewrite Hu.
  repeat (simpl; break_match); simpl; intros HS; try discriminate;
    repeat split; try reflexivity; try find_in; intros; discriminate.
Qed.

(** C2, on the code.  With a cookie, a refused import does not end the
    run: in every such run whose import request left, the hook returns
    normally and logs the line that reports the deployment, the rejection
    is never seen by the program, and the site-information request of the
    CSRF step leaves after the import request. *)
Theorem import_failure_not_propagated (args : V3.Options) (e : Env) (w : World)
    (fs : FS) (code : N) (message : string) :
  truthy (V3.cookie args) = true ->
  on_import w = Failure code message ->
  let r := V3.build_done args e w fs in
  sent EpImport (trace_of r) = true ->
  result_of r = inr tt
  /\ In (Log Info (deployed_message e)) (trace_of r)
  /\ rejected EpImport (trace_of r) = false
  /\ (forall t1 c i t2, trace_of r = t1 ++ Sent c (ImportBig i) :: t2 ->
        sent EpSiteInfo t2 = true).
Proof.
  intros Hc Hi. cbv zeta.
  assert (G : sent EpImport (trace_of (V3.build_done args e w fs)) = true ->
    result_of (V3.build_done args e w fs) = inr tt
    /\ In (Log Info (deployed_message e)) (trace_of (V3.build_done args e w fs))
    /\ rejected EpImport (trace_of (V3.build_done args e w fs)) = false
    /\ followed (is_sent EpImport) (is_sent EpSiteInfo)
         (trace_of (V3.build_done args e w fs)) = true).
  { run_cases args e w fs; unfold ask_site, sent, rejected; intros HS; try discriminate.
    - simpl in HS. rewrite (local_silent _ _ (remote_only_sent _) Hlocal) in HS.
      discriminate.
    - simpl in HS. rewrite existsb_app in HS.
      rewrite (local_silent _ _ (remote_only_sent _) Hlocal) in HS. simpl in HS.
      destruct (new_NekoAPI_cookie (V3.apiKey args) _ Hc) as [uc Hu].
      destruct (publish_import_unobserved _ uc (V3.siteName args) (V3.rssFeed args) e w
                  (or_empty (si_folder site)) rc
                  (fs_of (V3.stage (V3.rssFeed args) e w (or_empty (si_folder site)) fs))
                  Hu HS)
        as (P1 & P2 & P3 & P4 & P5 & _).
      unfold rejected in P4. simpl. rewrite existsb_app, P4.
      rewrite (local_silent _ _ (remote_only_rejected EpImport) Hlocal).
      rewrite (followed_skip _ (is_sent EpSiteInfo) _ _
                 (local_silent _ _ (remote_only_sent EpImport) Hlocal)).
      repeat split; auto.
      right; right; apply in_or_app; right; assumption.
  }
  intros HS. destruct (G HS) as (G1 & G2 & G3 & G4).
  repeat split; auto.
  intros t1 c i t2 E. eapply (followed_spec _ _ _ G4); eauto.
Qed.

(** The theorem at a run with a cookie whose import the server refuses. *)
Lemma import_failure_witness :
  let r := V3.build_done args_cookie demo_env world_import_fails demo_fs in
  result_of r = inr tt
  /\ In (Log Info (deployed_message demo_env)) (trace_of r)
  /\ rejected EpImport (trace_of r) = false.
Proof.
  cbv zeta.
  destruct (import_failure_not_propagated args_cookie demo_env world_import_fails
              demo_fs 500%N "import failed" eq_refl eq_refl eq_refl)
    as (H1 & H2 & H3 & _).
  repeat split; assumption.
Defined.

(** C3, on the code.  With a cookie, the CSRF token is fetched and a
    file edit is sent in a run whose import is refused: nothing in such a
    run waits for the import, whose success is never seen. *)
Theorem csrf_not_gated_by_import (args : V3.Options) (e : Env) (w : World)
    (fs : FS) (code : N) (message : string) (si : SiteInfo) (tok : string) :
  truthy (V3.cookie args) = true ->
  on_import w = Failure code message ->
  on_csrfSiteInfo w = Success si ->
  on_csrf w = Success tok ->
  let r := V3.build_done args e w fs in
  sent EpImport (trace_of r) = true ->
  sent EpCsrf (trace_of r) = true
  /\ sent EpFileEdit (trace_of r) = true
  /\ resolved EpImport (trace_of r) = false.
Proof.
  intros Hc Hi Hs Ht. cbv zeta.
  run_cases args e w fs; unfold ask_site, sent, resolved; intros HS; try discriminate.
  - simpl in HS. rewrite (local_silent _ _ (remote_only_sent _) Hlocal) in HS.
    discriminate.
  - simpl in HS. rewrite existsb_app in HS.
    rewrite (local_silent _ _ (remote_only_sent _) Hlocal) in HS. simpl in HS.
    destruct (new_NekoAPI_cookie (V3.apiKey args) _ Hc) as [uc Hu].
    destruct (publish_import_unobserved _ uc (V3.siteName args) (V3.rssFeed args) e w
                (or_empty (si_folder site)) rc
                (fs_of (V3.stage (V3.rssFeed args) e w (or_empty (si_folder site)) fs))
                Hu HS)
      as (_ & _ & P3 & _ & _ & P6 & P7).
    specialize (P6 si Hs). specialize (P7 si tok Hs Ht).
    unfold sent, resolved in *. simpl. rewrite !existsb_app, P3, P6, P7.
    rewrite (local_silent _ _ (remote_only_resolved EpImport) Hlocal).
    rewrite !orb_true_r. auto.
Qed.

(** The theorem at the same run. *)
Lemma csrf_not_gated_witness :
  let r := V3.build_done args_cookie demo_env world_import_fails demo_fs in
  sent EpCsrf (trace_of r) = true
  /\ sent EpFileEdit (trace_of r) = true
  /\ resolved EpImport (trace_of r) = false.
Proof.
  cbv zeta.
  exact (csrf_not_gated_by_import args_cookie demo_env world_import_fails demo_fs
           500%N "import failed" demo_site "csrf-1"
           eq_refl eq_refl eq_refl eq_refl eq_refl).
Defined.

Lemma publish_no_cookie_import_failure neko sn rf e w folder rc fs failure :
  V3.ucfg neko = None ->
  let r := V3.publish neko sn rf e w folder rc fs in
  In (Rejected EpImport failure) (trace_of r) ->
  result_of r = inl failure
  /\ ~ In (Log Info (deployed_message e)) (trace_of r).
Proof.
  intros Hu. unfold_run. rewrite Hu.
  repeat (simpl; break_match); simpl; intros HIn; in_cases HIn;
    (split; [reflexivity|]); intros HL; in_cases HL.
Qed.

(** X16.  Without a cookie the same method returns the promise of the
    import, and the hook's [await] follows it: a failed import ends the
    run with the error of the import. *)
Lemma no_cookie_import_failure_propagates (args : V3.Options) (e : Env) (w : World)
    (fs : FS) (failure : JsError) :
  truthy (V3.cookie args) = false ->
  let r := V3.build_done args e w fs in
  In (Rejected EpImport failure) (trace_of r) ->
  result_of r = inl failure.
Proof.
  intros Hc. cbv zeta.
  run_cases args e w fs; unfold ask_site; intros HIn.
  - in_cases HIn.
  - in_cases HIn.
  - destruct HIn as [HIn|[HIn|HIn]]; try discriminate.
    exfalso. revert HIn. apply local_not_in; [reflexivity|exact Hlocal].
  - destruct HIn as [HIn|[HIn|HIn]]; try discriminate.
    apply in_app_or in HIn as [HIn|HIn];
      [exfalso; revert HIn; apply local_not_in; [reflexivity|exact Hlocal]|].
    apply publish_no_cookie_import_failure in HIn as [P1 _];
      [exact P1 | apply new_NekoAPI_no_cookie; exact Hc].
  - in_cases HIn.
Qed.

(** X17.  The [fetch] version awaits the import and checks the response
    before anything else: a response that is not [ok] ends
    [finalizeUpload] with the error that names the import, and nothing is
    sent after it. *)
Lemma fetch_import_failure_aborts (w : V2Fetch.FetchWorld) (apiToken token : Headers)
    (bigId : string) (rssFile rssContent : option string) (resp : V2Fetch.HttpResponse)
    (fs : FS) :
  V2Fetch.f_import w = V2Fetch.Response resp ->
  V2Fetch.ok resp = false ->
  let r := V2Fetch.finalizeUpload w apiToken token bigId rssFile rssContent fs in
  result_of r =
    inl (PlainError ("Failed to import: " ++ V2Fetch.status_line resp
                     ++ " (" ++ V2Fetch.text resp ++ ")")%string)
  /\ trace_of r =
       [ Sent (ViaFetch apiToken) (ImportBig bigId);
         Rejected EpImport (V2Fetch.http_failure EpImport resp) ].
Proof.
  intros Hi Hok. unfold V2Fetch.finalizeUpload, V2Fetch.fetch.
  rewrite Hi. unfold bind, emit, ret, throw, result_of, trace_of. simpl.
  rewrite Hok. simpl. split; reflexivity.
Qed.

(** ** The cookie client and the API key *)

Lemma new_NekoAPI_ucfg k c :
  V3.ucfg (V3.new_NekoAPI k c)
  = if truthy c then Some (cookie_client_config (or_empty c)) else None.
Proof. unfold V3.new_NekoAPI. destruct (truthy c); reflexivity. Qed.

Lemma publish_key_independent k1 k2 c sn rf e w folder rc fs :
  let r1 := V3.publish (V3.new_NekoAPI k1 c) sn rf e w folder rc fs in
  let r2 := V3.publish (V3.new_NekoAPI k2 c) sn rf e w folder rc fs in
  cookie_requests (trace_of r1) = cookie_requests (trace_of r2).
Proof.
  unfold V3.new_NekoAPI. destruct (truthy c); all_cases; reflexivity.
Qed.

Lemma publish_cookie_client k c sn rf e w folder rc fs :
  forall cl r,
    In (cl, r) (cookie_requests (trace_of (V3.publish (V3.new_NekoAPI k c) sn rf e w
                                             folder rc fs))) ->
    cl = ViaLibrary (cookie_client_config (or_empty c)).
Proof.
  unfold V3.new_NekoAPI. destruct (truthy c); all_cases; intros ? ? HIn; in_cases HIn.
Qed.

Lemma cookie_requests_run (k : string) (args : V3.Options) (e : Env) (w : World) (fs : FS) :
  String.eqb k "" = false ->
  cookie_requests (trace_of (V3.build_done (with_apiKey k args) e w fs)) =
  match on_siteInfo w with
  | Failure _ _ => []
  | Success site =>
      if negb (truthy (si_folder site)) then []
      else
        let s := V3.stage (V3.rssFeed args) e w (or_empty (si_folder site)) fs in
        match result_of s with
        | inl _ => []
        | inr rc =>
            cookie_requests
              (trace_of (V3.publish (V3.new_NekoAPI k (V3.cookie args))
                           (V3.siteName args) (V3.rssFeed args) e w
                           (or_empty (si_folder site)) rc (fs_of s)))
        end
  end.
Proof.
  intros Hk. rewrite build_done_run. simpl. rewrite Hk.
  destruct (on_siteInfo w) as [site|st body]; [|reflexivity].
  destruct (negb (truthy (si_folder site))); [reflexivity|].
  cbv zeta.
  pose proof (stage_local (V3.rssFeed args) e w (or_empty (si_folder site)) fs) as Hl.
  destruct (result_of (V3.stage (V3.rssFeed args) e w (or_empty (si_folder site)) fs));
    rewrite trace_of_mk; unfold ask_site; simpl.
  - apply cookie_requests_local. exact Hl.
  - rewrite cookie_requests_app, (cookie_requests_local _ Hl). reflexivity.
Qed.

(** C10.  Take two runs that differ only in the API key (both keys
    present).  The requests to the cookie-only endpoints (CSRF and file
    edit), each with the configuration of the client that sends it, are the
    same in both runs.  Every such request leaves through the cookie
    client, whose configuration is built from the cookie alone: its API key
    is empty and its [Authorization] header is the empty string. *)
Theorem cookie_client_ignores_api_key (k1 k2 : string) (args : V3.Options)
    (e : Env) (w : World) (fs : FS) :
  String.eqb k1 "" = false ->
  String.eqb k2 "" = false ->
  let requests k :=
    cookie_requests (trace_of (V3.build_done (with_apiKey k args) e w fs)) in
  requests k1 = requests k2
  /\ (forall cl r, In (cl, r) (requests k1) ->
        cl = ViaLibrary (cookie_client_config (or_empty (V3.cookie args))))
  /\ cfg_apiKey (cookie_client_config (or_empty (V3.cookie args))) = ""%string
  /\ header "Authorization"
       (cfg_headers (cookie_client_config (or_empty (V3.cookie args)))) = Some ""%string
  /\ (truthy (V3.cookie args) = true ->
      V3.ucfg (V3.new_NekoAPI k1 (V3.cookie args))
      = Some (cookie_client_config (or_empty (V3.cookie args)))).
Proof.
  intros H1 H2. cbv beta zeta.
  rewrite !cookie_requests_run by assumption.
  split; [|split; [|split; [reflexivity|split; [reflexivity|]]]].
  - destruct (on_siteInfo w) as [site|]; [|reflexivity].
    destruct (negb (truthy (si_folder site))); [reflexivity|].
    cbv zeta. destruct (result_of _); [reflexivity|].
    apply publish_key_independent.
  - intros cl r.
    destruct (on_siteInfo w) as [site|]; [|intros []].
    destruct (negb (truthy (si_folder site))); [intros []|].
    cbv zeta. destruct (result_of _); [intros []|].
    apply publish_cookie_client.
  - intros Hc. rewrite new_NekoAPI_ucfg, Hc. reflexivity.
Qed.

(** The theorem at two keys, on a run that reaches the metadata step. *)
Lemma cookie_client_witness :
  cookie_requests (trace_of (V3.build_done (with_apiKey "KEY-A" args_cookie)
                               demo_env world_ok demo_fs))
  = cookie_requests (trace_of (V3.build_done (with_apiKey "KEY-B" args_cookie)
                                 demo_env world_ok demo_fs))
  /\ length (cookie_requests (trace_of (V3.build_done (with_apiKey "KEY-A" args_cookie)
                               demo_env world_ok demo_fs))) = 3.
Proof.
  split.
  - exact (proj1 (cookie_client_ignores_api_key "KEY-A" "KEY-B" args_cookie
                    demo_env world_ok demo_fs eq_refl eq_refl)).
  - reflexivity.
Defined.

(** The [fetch] version builds the headers of the cookie calls from the
    cookie alone; it sends no [Authorization] header with them at all. *)
Lemma getToken_ignores_api_key (k1 k2 : string) (c : option string) :
  truthy c = true ->
  V2Fetch.getToken k1 c = V2Fetch.getToken k2 c
  /\ header "Authorization" (V2Fetch.getToken k1 c) = None.
Proof.
  intros H. unfold V2Fetch.getToken. rewrite H. split; reflexivity.
Qed.

(** ** The content of the RSS edit *)







(** ** Paths *)

Lemma path_eqb_refl (p : Path) : path_eqb p p = true.
Proof. induction p as [|a p IH]; simpl; [reflexivity|]. now rewrite String.eqb_refl. Qed.

Lemma path_eqb_eq (p q : Path) : path_eqb p q = true <-> p = q.
Proof.
  revert q. induction p as [|a p IH]; intros [|b q]; simpl; split; intros H;
    try reflexivity; try discriminate.
  - apply andb_prop in H as [H1 H2]. apply String.eqb_eq in H1. apply IH in H2.
    now subst.
  - injection H as <- <-. rewrite String.eqb_refl. now apply IH.
Qed.

Lemma is_prefix_refl (p : Path) : is_prefix p p = true.
Proof. induction p as [|a p IH]; simpl; [reflexivity|]. now rewrite String.eqb_refl. Qed.

Lemma is_prefix_app (p r : Path) : is_prefix p (p ++ r) = true.
Proof. induction p as [|a p IH]; simpl; [reflexivity|]. now rewrite String.eqb_refl. Qed.

Lemma is_prefix_spec (p q : Path) :
  is_prefix p q = true <-> exists r, q = p ++ r.
Proof.
  revert q. induction p as [|a p IH]; intros q; simpl.
  - split; [intros _; now exists q | reflexivity].
  - destruct q as [|b q].
    + split; [discriminate | intros [r H]; discriminate].
    + split.
      * intros H. apply andb_prop in H as [H1 H2]. apply String.eqb_eq in H1.
        apply IH in H2 as [r ->]. subst. now exists r.
      * intros [r H]. injection H as <- ->. rewrite String.eqb_refl. simpl.
        apply is_prefix_app.
Qed.

Lemma is_prefix_trans (p q r : Path) :
  is_prefix p q = true -> is_prefix q r = true -> is_prefix p r = true.
Proof.
  intros H1 H2. apply is_prefix_spec in H1 as [a ->]. apply is_prefix_spec in H2 as [b ->].
  rewrite <- app_assoc. apply is_prefix_app.
Qed.

(** Two prefixes of one path are comparable. *)
Lemma is_prefix_comparable (p q r : Path) :
  is_prefix p r = true -> is_prefix q r = true ->
  is_prefix p q = true \/ is_prefix q p = true.
Proof.
  revert q r. induction p as [|a p IH]; intros q r H1 H2; [now left|].
  destruct q as [|b q]; [now right|].
  destruct r as [|c r]; [discriminate|]. simpl in *.
  apply andb_prop in H1 as [A1 A2]. apply andb_prop in H2 as [B1 B2].
  apply String.eqb_eq in A1, B1. subst.
  rewrite String.eqb_refl. simpl. eapply IH; eauto.
Qed.

Lemma strip_prefix_some (p q r : Path) :
  strip_prefix p q = Some r <-> q = p ++ r.
Proof.
  revert q. induction p as [|a p IH]; intros q; simpl.
  - split; [intros H; now injection H | intros ->; reflexivity].
  - destruct q as [|b q]; [split; discriminate|].
    destruct (String.eqb_spec a b) as [->|N].
    + rewrite IH. split; [intros ->; reflexivity | intros H; now injection H].
    + split; [discriminate | intros H; injection H as -> _; congruence].
Qed.

Lemma strip_prefix_is_prefix (p q r : Path) :
  strip_prefix p q = Some r -> is_prefix p q = true.
Proof. intros H. apply strip_prefix_some in H. subst. apply is_prefix_app. Qed.

(** ** Cleanup and stale staging *)










(** ** What a run changes in the build output *)

Lemma strip_prefix_none (p q : Path) :
  is_prefix p q = false -> strip_prefix p q = None.
Proof.
  intros H. destruct (strip_prefix p q) eqn:E; [|reflexivity].
  apply strip_prefix_is_prefix in E. congruence.
Qed.

Lemma path_eqb_false_of_prefix (p q : Path) :
  is_prefix p q = false -> path_eqb p q = false.
Proof.
  intros H. destruct (path_eqb p q) eqn:E; [|reflexivity].
  apply path_eqb_eq in E. subst. rewrite is_prefix_refl in H. discriminate.
Qed.

Section Frame.
Context {A B : Type} (p : Path).

Lemma preserves_ret (a : A) : preserves p (ret a).
Proof. intros fs. reflexivity. Qed.

Lemma preserves_throw (x : JsError) : preserves p (@throw A x).
Proof. intros fs. reflexivity. Qed.

Lemma preserves_bind (m : M A) (f : A -> M B) :
  preserves p m -> (forall a, preserves p (f a)) -> preserves p (bind m f).
Proof.
  intros Hm Hf fs. unfold bind. specialize (Hm fs). unfold fs_of in *.
  destruct (m fs) as [[[x|a] fs1] t1]; simpl in *; [assumption|].
  specialize (Hf a fs1). unfold fs_of in Hf.
  destruct (f a fs1) as [[r fs2] t2]; simpl in *. congruence.
Qed.

Lemma preserves_try_catch (m : M A) (h : JsError -> M A) :
  preserves p m -> (forall x, preserves p (h x)) -> preserves p (try_catch m h).
Proof.
  intros Hm Hh fs. unfold try_catch. specialize (Hm fs). unfold fs_of in *.
  destruct (m fs) as [[[x|a] fs1] t1]; simpl in *; [|assumption].
  specialize (Hh x fs1). unfold fs_of in Hh.
  destruct (h x fs1) as [[r fs2] t2]; simpl in *. congruence.
Qed.
End Frame.

Lemma preserves_emit p ev : preserves p (emit ev).
Proof. intros fs. reflexivity. Qed.

Lemma preserves_existsSync p q : preserves p (fs_existsSync q).
Proof. intros fs. reflexivity. Qed.

Lemma preserves_readFileSync p q : preserves p (fs_readFileSync q).
Proof. intros fs. unfold fs_readFileSync. destruct (fs q) as [[]|]; reflexivity. Qed.

Lemma preserves_rmSync p q : is_prefix q p = false -> preserves p (fs_rmSync q).
Proof. intros H fs. unfold fs_rmSync, fs_of, rm_tree. simpl. now rewrite H. Qed.

Lemma preserves_mkdirSync p q : path_eqb q p = false -> preserves p (fs_mkdirSync q).
Proof.
  intros H fs. unfold fs_mkdirSync, fs_of, write_node.
  destruct (fs q); simpl; [reflexivity|]. now rewrite H.
Qed.

Lemma preserves_renameSync p a b :
  is_prefix a p = false -> is_prefix b p = false -> preserves p (fs_renameSync a b).
Proof.
  intros Ha Hb fs. unfold fs_renameSync, fs_of, move_tree.
  destruct (fs a) as [[]|]; destruct (fs b) as [[]|]; simpl; try reflexivity;
    rewrite (strip_prefix_none _ _ Hb), Ha; reflexivity.
Qed.

Lemma preserves_cpSync p src dst :
  is_prefix dst p = false -> is_prefix p dst = false -> preserves p (fs_cpSync src dst).
Proof.
  intros Hd Hp fs. unfold fs_cpSync, fs_of, copy_tree.
  destruct (fs src) as [n|]; [|reflexivity].
  destruct (is_prefix src dst); [reflexivity|].
  destruct n; destruct (fs dst) as [[]|]; simpl; try reflexivity;
    rewrite (strip_prefix_none _ _ Hd), Hp; destruct (fs p); reflexivity.
Qed.

Lemma preserves_zipDirectory p w src out :
  path_eqb out p = false -> preserves p (zipDirectory w src out).
Proof.
  intros H fs. unfold zipDirectory, fs_of, write_node.
  destruct (fs out) as [[]|]; simpl; try reflexivity; now rewrite H.
Qed.

Lemma preserves_request {A} p c r (o : Outcome A) : preserves p (request c r o).
Proof. intros fs. reflexivity. Qed.

Lemma preserves_await {A} p (pr : Promise A) : preserves p (await pr).
Proof. intros fs. unfold await. destruct (settled pr); reflexivity. Qed.

Lemma preserves_clearStaging p e :
  is_prefix (V3.tmpBuildDir e) p = false -> preserves p (V3.clearStaging e).
Proof.
  intros H. unfold V3.clearStaging.
  apply preserves_bind; [apply preserves_existsSync|]. intros stale.
  apply preserves_bind.
  - destruct stale; [now apply preserves_rmSync | apply preserves_ret].
  - intros _. apply preserves_mkdirSync. now apply path_eqb_false_of_prefix.
Qed.

Lemma preserves_stage p rf e w folder :
  is_prefix (V3.tmpBuildDir e) p = false ->
  is_prefix (path404 e) p = false ->
  is_prefix (pathNotFound e) p = false ->
  is_prefix (V3.stageDir e folder) p = false ->
  is_prefix p (V3.stageDir e folder) = false ->
  path_eqb (V3.zipPath e folder) p = false ->
  preserves p (V3.stage rf e w folder).
Proof.
  intros Ht H4 Hn Hs Hs' Hz. unfold V3.stage.
  apply preserves_bind; [now apply preserves_clearStaging|]. intros _.
  apply preserves_bind.
  { destruct (truthy rf); [|apply preserves_ret].
    apply preserves_bind; [apply preserves_readFileSync|]. intros s. apply preserves_ret. }
  intros rc.
  apply preserves_bind; [apply preserves_existsSync|]. intros has404.
  apply preserves_bind.
  { destruct has404; [|apply preserves_ret].
    apply preserves_bind; [apply preserves_emit|]. intros _.
    now apply preserves_renameSync. }
  intros _.
  apply preserves_bind; [now apply preserves_cpSync|]. intros _.
  apply preserves_bind; [now apply preserves_zipDirectory|]. intros _.
  apply preserves_bind; [apply preserves_emit|]. intros _.
  apply preserves_ret.
Qed.

Lemma preserves_publish p neko sn rf e w folder rc :
  is_prefix (V3.tmpBuildDir e) p = false ->
  path_eqb (V3.zipPath e folder) p = false ->
  preserves p (V3.publish neko sn rf e w folder rc).
Proof.
  intros Ht Hz fs. all_cases; unfold rm_tree, remove_node; rewrite ?Ht, ?Hz; reflexivity.
Qed.

Lemma in_output_not_in (out other p : Path) :
  apart out other = true -> is_prefix out p = true -> is_prefix other p = false.
Proof.
  unfold apart. intros Ha Hp.
  apply andb_prop in Ha as [A1 A2]. apply negb_true_iff in A1, A2.
  destruct (is_prefix other p) eqn:E; [|reflexivity].
  destruct (is_prefix_comparable _ _ _ Hp E); congruence.
Qed.

Lemma in_output_not_above (out other p : Path) :
  is_prefix out other = false -> is_prefix out p = true -> is_prefix p other = false.
Proof.
  intros Ha Hp. destruct (is_prefix p other) eqn:E; [|reflexivity].
  rewrite (is_prefix_trans _ _ _ Hp E) in Ha. discriminate.
Qed.

Lemma output_frame (args : V3.Options) (e : Env) (w : World)
    (fs : FS) (p : Path) :
  apart (outDir e) (V3.tmpBuildDir e) = true ->
  (forall site, on_siteInfo w = Success site ->
     apart (outDir e) (V3.stageDir e (or_empty (si_folder site))) = true
     /\ is_prefix (outDir e) (V3.zipPath e (or_empty (si_folder site))) = false) ->
  is_prefix (outDir e) p = true ->
  is_prefix (path404 e) p = false ->
  is_prefix (pathNotFound e) p = false ->
  fs_of (V3.build_done args e w fs) p = fs p.
Proof.
  intros Htmp Hsite' Hp H4 Hn.
  run_cases args e w fs; try reflexivity;
    destruct (Hsite' site eq_refl) as [Hst Hz];
    pose proof (in_output_not_in _ _ _ Htmp Hp) as Q1;
    pose proof (in_output_not_in _ _ _ Hst Hp) as Q2;
    assert (Q3 : is_prefix p (V3.stageDir e (or_empty (si_folder site))) = false)
      by (apply (in_output_not_above (outDir e)); [|exact Hp];
          unfold apart in Hst; apply andb_prop in Hst as [A1 _];
          now apply negb_true_iff in A1);
    assert (Q4 : path_eqb (V3.zipPath e (or_empty (si_folder site))) p = false)
      by (destruct (path_eqb (V3.zipPath e (or_empty (si_folder site))) p) eqn:E;
          [apply path_eqb_eq in E; subst p; congruence | reflexivity]);
    pose proof (preserves_stage p (V3.rssFeed args) e w (or_empty (si_folder site))
                  Q1 H4 Hn Q2 Q3 Q4 fs) as PS.
  - exact PS.
  - rewrite (preserves_publish p _ _ _ _ _ _ _ Q1 Q4). exact PS.
Qed.

Lemma stage_ops rf e w folder fs op :
  In (Fs op) (trace_of (V3.stage rf e w folder fs)) ->
  op = Rename (path404 e) (pathNotFound e) \/ staging_op e folder op.
Proof.
  unfold staging_op. all_cases; intros HIn; in_cases HIn; auto 10.
Qed.

Lemma publish_ops neko sn rf e w folder rc fs op :
  In (Fs op) (trace_of (V3.publish neko sn rf e w folder rc fs)) ->
  staging_op e folder op.
Proof.
  unfold staging_op. all_cases; intros HIn; in_cases HIn; auto 10.
Qed.

Lemma build_done_ops (args : V3.Options) (e : Env) (w : World) (fs : FS) (op : FsOp) :
  In (Fs op) (trace_of (V3.build_done args e w fs)) ->
  op = Rename (path404 e) (pathNotFound e)
  \/ exists site, on_siteInfo w = Success site
                  /\ staging_op e (or_empty (si_folder site)) op.
Proof.
  run_cases args e w fs; unfold ask_site; intros HIn; try (in_cases HIn; fail).
  - destruct HIn as [HIn|[HIn|HIn]]; try discriminate.
    apply stage_ops in HIn as [H|H]; [now left|right]. now exists site.
  - destruct HIn as [HIn|[HIn|HIn]]; try discriminate.
    apply in_app_or in HIn as [HIn|HIn].
    + apply stage_ops in HIn as [H|H]; [now left|right]. now exists site.
    + apply publish_ops in HIn. right. now exists site.
Qed.

(** C8, as the code has it.  When the staging directory, the place the
    output is copied to and the archive lie outside the build output, a run
    leaves every entry of the build output as it found it, except what is
    at or below [404.html] and [not_found.html]; and every file-system
    change of the run is the rename of [404.html] to [not_found.html]
    inside the build output or one of the changes to the staging directory
    and the archive. *)
Theorem output_changed_only_by_rename (args : V3.Options) (e : Env) (w : World)
    (fs : FS) :
  apart (outDir e) (V3.tmpBuildDir e) = true ->
  (forall site, on_siteInfo w = Success site ->
     apart (outDir e) (V3.stageDir e (or_empty (si_folder site))) = true
     /\ is_prefix (outDir e) (V3.zipPath e (or_empty (si_folder site))) = false) ->
  let r := V3.build_done args e w fs in
  (forall p, is_prefix (outDir e) p = true ->
             is_prefix (path404 e) p = false ->
             is_prefix (pathNotFound e) p = false ->
             fs_of r p = fs p)
  /\ (forall op, In (Fs op) (trace_of r) ->
        op = Rename (path404 e) (pathNotFound e)
        \/ exists site, on_siteInfo w = Success site
                        /\ staging_op e (or_empty (si_folder site)) op).
Proof.
  intros Htmp Hsite. cbv zeta. split.
  - intros p. now apply output_frame.
  - intros op. apply build_done_ops.
Qed.

(** The theorem at the sample project: the index page is untouched. *)
Lemma output_frame_witness :
  fs_of (V3.build_done args_cookie demo_env world_ok demo_fs)
        ["proj"; "dist"; "index.html"]
  = Some (File "<html></html>").
Proof.
  refine (proj1 (output_changed_only_by_rename args_cookie demo_env world_ok demo_fs
                   eq_refl _) ["proj"; "dist"; "index.html"] eq_refl eq_refl eq_refl).
  intros site E. injection E as <-. split; reflexivity.
Defined.

(** C8, as stated, fails: the hook renames [404.html] inside the build
    output itself, before it copies the output to the staging directory. *)
Lemma output_is_renamed_in_place :
  (let r := V3.build_done args_no_cookie demo_env world_ok demo_fs in
   is_prefix (outDir demo_env) ["proj"; "dist"; "404.html"] = true
   /\ demo_fs ["proj"; "dist"; "404.html"] = Some (File "not here")
   /\ fs_of r ["proj"; "dist"; "404.html"] = None
   /\ demo_fs ["proj"; "dist"; "not_found.html"] = None
   /\ fs_of r ["proj"; "dist"; "not_found.html"] = Some (File "not here")
   /\ existsb (fun ev => match ev with
                         | Fs (Rename a b) =>
                             is_prefix (outDir demo_env) a && is_prefix (outDir demo_env) b
                         | _ => false
                         end) (trace_of r) = true)
  /\ ~ (forall args e w fs p,
          is_prefix (outDir e) p = true ->
          fs_of (V3.build_done args e w fs) p = fs p).
Proof.
  split.
  - cbv zeta. repeat split; reflexivity.
  - intros H.
    specialize (H args_no_cookie demo_env world_ok demo_fs
                  ["proj"; "dist"; "404.html"] eq_refl).
    discriminate H.
Qed.

(** ** The two 2.0.3 versions on the sample project

    How the earlier versions of the hook differ from 3.0.0 on the points
    above, by evaluation. *)

(** 2.0.3 on the client library rethrows a failure of the metadata step:
    the run ends with the error, and the archive and the staging directory
    stay behind. *)
Example v2_metadata_failure_rethrown :
  let r := V2.build_done 8 v2_args demo_env world_csrf_fails demo_fs in
  result_of r = inl (ApiError EpCsrf 401 "bad cookie")
  /\ fs_of r ["proj"; "build.zip"] = Some (File "PK")
  /\ fs_of r ["proj"; ".build-temp"] = Some Dir.
Proof. cbv zeta. repeat split; reflexivity. Qed.

(** 2.0.3 finds the feed by walking the output, appends a line feed to it
    and no marker comment, and addresses the edit by the local path. *)
Example v2_rss_edit_has_no_marker :
  hd_error (edit_forms (trace_of (V2.build_done 8 v2_args demo_env world_ok demo_fs)))
  = Some {| pathname := "/proj/dist/rss.xml";
            content := String.append "<rss/>" (String "010"%char "");
            site := "me"; csrf := "csrf-1" |}.
Proof. reflexivity. Qed.

(** 2.0.3 on the client library renames [404.html] in the build output
    as 3.0.0 does; the [fetch] version has no rename and leaves it. *)
Example v2_renames_in_place :
  fs_of (V2.build_done 8 v2_args demo_env world_ok demo_fs) ["proj"; "dist"; "404.html"]
  = None
  /\ fs_of (V2Fetch.build_done fetch_args demo_env
              (fetch_world (ok_response "" None) (ok_response "csrf-1" None)) demo_fs)
       ["proj"; "dist"; "404.html"]
     = Some (File "not here").
Proof. split; reflexivity. Qed.

(** In the [fetch] version a refused import ends the whole run before any
    request of the metadata step. *)
Example fetch_import_failure_ends_run :
  let r := V2Fetch.build_done fetch_args demo_env
             (fetch_world (refused_response 500 "import failed")
                (ok_response "csrf-1" None)) demo_fs in
  result_of r = inl (PlainError "Failed to import: 500 Refused (import failed)")
  /\ upload_calls (trace_of r) = [EpBigCreate; EpBigAppend; EpDelete; EpImport]
  /\ sent EpSiteInfo (trace_of r) = false
  /\ sent EpCsrf (trace_of r) = false
  /\ sent EpFileEdit (trace_of r) = false.
Proof. cbv zeta. repeat split; reflexivity. Qed.

(** In the [fetch] version a refused CSRF request ends the run with an
    error, before the cleanup. *)
Example fetch_csrf_failure_rethrown :
  let r := V2Fetch.build_done fetch_args demo_env
             (fetch_world (ok_response "" None) (refused_response 401 "bad cookie"))
             demo_fs in
  result_of r = inl (PlainError "Failed to get CSRF token: 401 Refused (bad cookie)")
  /\ fs_of r ["proj"; "build.zip"] = Some (File "PK").
Proof. cbv zeta. split; reflexivity. Qed.

(** In the [fetch] version a refused append ends the run with the error
    that names the upload. *)
Example fetch_append_failure_names_upload :
  let w := fetch_world (ok_response "" None) (ok_response "csrf-1" None) in
  let r := V2Fetch.uploadFile
             {| V2Fetch.f_archiver := V2Fetch.f_archiver w;
                V2Fetch.f_readdir := V2Fetch.f_readdir w;
                V2Fetch.f_depth := V2Fetch.f_depth w;
                V2Fetch.f_create := V2Fetch.f_create w;
                V2Fetch.f_append := refused_response 413 "too large";
                V2Fetch.f_delete := V2Fetch.f_delete w;
                V2Fetch.f_import := V2Fetch.f_import w;
                V2Fetch.f_siteInfo := V2Fetch.f_siteInfo w;
                V2Fetch.f_csrf := V2Fetch.f_csrf w;
                V2Fetch.f_editRss := V2Fetch.f_editRss w;
                V2Fetch.f_editMarker := V2Fetch.f_editMarker w;
                V2Fetch.f_now_text := V2Fetch.f_now_text w |}
             (V2Fetch.getToken "KEY" None) ["proj"; "dist"; "index.html"] "session-1"
             demo_fs in
  result_of r = inl (PlainError "Failed to upload: 413 Refused - too large").
Proof. reflexivity. Qed.

(** * Further properties of the code *)

(** ** Validation of the options *)





(** ** Failures of the upload *)

Lemma quiet_after_none_of (P Q : Event -> bool) (t : Trace) :
  existsb Q t = false -> quiet_after P Q t = true.
Proof.
  induction t as [|x t IH]; simpl; intros H; [reflexivity|].
  apply orb_false_elim in H as [H1 H2]. rewrite (IH H2), H2.
  destruct (P x); reflexivity.
Qed.

Lemma stage_writes_archive rf e w folder fs rc :
  result_of (V3.stage rf e w folder fs) = inr rc ->
  exists tree,
    fs_of (V3.stage rf e w folder fs) (V3.zipPath e folder)
    = Some (File (archiver w tree)).
Proof.
  unfold_run. repeat (simpl; break_match); simpl; intros H; try discriminate;
    unfold write_node at 1; rewrite path_eqb_refl; eexists; reflexivity.
Qed.

Lemma publish_fatal_upload_failure neko sn rf e w folder rc fs :
  let r := V3.publish neko sn rf e w folder rc fs in
  rejected EpBigCreate (trace_of r) || rejected EpBigAppend (trace_of r) = true ->
  (exists failure, result_of r = inl failure
                   /\ (rejected EpBigCreate (trace_of r) = true ->
                       In (ConsoleError failure) (trace_of r)))
  /\ fs_of r = fs
  /\ existsb is_fs (trace_of r) = false
  /\ sent EpDelete (trace_of r) = false
  /\ sent EpImport (trace_of r) = false.
Proof.
  all_cases; intros H; try discriminate;
    (split; [eexists; split; [reflexivity|intros; try discriminate; find_in]|]);
    repeat split; reflexivity.
Qed.

(** X2.  When the creation of the upload session or the append is seen to
    fail, the run ends with an error (for the creation, the one printed on
    the console), neither the delete nor the import request leaves, no
    file-system operation follows the creation request, and the archive
    staging wrote is still in the working directory. *)
Theorem upload_failure_leaves_archive (args : V3.Options) (e : Env) (w : World)
    (fs : FS) :
  let r := V3.build_done args e w fs in
  rejected EpBigCreate (trace_of r) || rejected EpBigAppend (trace_of r) = true ->
  (exists failure, result_of r = inl failure
                   /\ (rejected EpBigCreate (trace_of r) = true ->
                       In (ConsoleError failure) (trace_of r)))
  /\ sent EpDelete (trace_of r) = false
  /\ sent EpImport (trace_of r) = false
  /\ (forall t1 c t2, trace_of r = t1 ++ Sent c BigCreate :: t2 ->
        existsb is_fs t2 = false)
  /\ (exists site tree,
        on_siteInfo w = Success site
        /\ fs_of r (V3.zipPath e (or_empty (si_folder site)))
           = Some (File (archiver w tree))).
Proof.
  cbv zeta.
  assert (G :
    rejected EpBigCreate (trace_of (V3.build_done args e w fs))
    || rejected EpBigAppend (trace_of (V3.build_done args e w fs)) = true ->
    (exists failure, result_of (V3.build_done args e w fs) = inl failure
                   /\ (rejected EpBigCreate (trace_of (V3.build_done args e w fs)) = true ->
                       In (ConsoleError failure) (trace_of (V3.build_done args e w fs))))
    /\ sent EpDelete (trace_of (V3.build_done args e w fs)) = false
    /\ sent EpImport (trace_of (V3.build_done args e w fs)) = false
    /\ quiet_after (is_sent EpBigCreate) is_fs (trace_of (V3.build_done args e w fs)) = true
    /\ (exists site tree,
          on_siteInfo w = Success site
          /\ fs_of (V3.build_done args e w fs) (V3.zipPath e (or_empty (si_folder site)))
             = Some (File (archiver w tree)))).
  { run_cases args e w fs; unfold ask_site, rejected, sent; intros H; try discriminate.
    - simpl in H.
      rewrite !(local_silent _ _ (remote_only_rejected _) Hlocal) in H. discriminate.
    - simpl in H. rewrite !existsb_app in H.
      rewrite !(local_silent _ _ (remote_only_rejected _) Hlocal) in H. simpl in H.
      destruct (publish_fatal_upload_failure
                  (V3.new_NekoAPI (V3.apiKey args) (V3.cookie args))
                  (V3.siteName args) (V3.rssFeed args) e w (or_empty (si_folder site)) rc
                  (fs_of (V3.stage (V3.rssFeed args) e w (or_empty (si_folder site)) fs)) H)
        as ((failure & P1 & P1') & P2 & P3 & P4 & P5).
      unfold rejected, sent in *.
      destruct (stage_writes_archive _ _ _ _ _ _ Hstage) as [tree Ht].
      simpl. rewrite !existsb_app, P4, P5.
      rewrite !(local_silent _ _ (remote_only_sent _) Hlocal).
      rewrite !(local_silent _ _ (remote_only_rejected _) Hlocal).
      rewrite (quiet_after_skip _ _ _ _ (local_silent _ _ (remote_only_sent EpBigCreate) Hlocal)).
      split; [|split; [reflexivity|split; [reflexivity|split]]].
      + exists failure. split; [exact P1|]. simpl. intros R.
        right; right; apply in_or_app; right. apply P1'. exact R.
      + apply quiet_after_none_of. exact P3.
      + exists site, tree. split; [reflexivity|]. rewrite P2. exact Ht. }
  intros H. destruct (G H) as (G1 & G2 & G3 & G4 & G5).
  repeat split; auto.
  intros t1 c t2 E. eapply (quiet_after_spec _ _ _ G4); eauto.
Qed.

Lemma upload_failure_witness :
  let r := V3.build_done args_cookie demo_env
             (demo_world (Failure 413 "too large") (Success tt) (Success tt)
                (Success "csrf-1") (Success tt) (Success tt)) demo_fs in
  sent EpImport (trace_of r) = false
  /\ fs_of r ["proj"; "build.zip"] = Some (File "PK").
Proof.
  cbv zeta.
  destruct (upload_failure_leaves_archive args_cookie demo_env
             (demo_world (Failure 413 "too large") (Success tt) (Success tt)
                (Success "csrf-1") (Success tt) (Success tt)) demo_fs eq_refl)
    as (_ & _ & H & _).
  split; [exact H | reflexivity].
Defined.

(** ** The file edits *)

Lemma publish_edit_fields neko sn rf e w folder rc fs f :
  In f (edit_forms (trace_of (V3.publish neko sn rf e w folder rc fs))) ->
  on_csrf w = Success (csrf f)
  /\ site f = or_empty sn
  /\ V3.ucfg neko <> None
  /\ resolved EpCsrf (trace_of (V3.publish neko sn rf e w folder rc fs)) = true.
Proof.
  all_cases; intros HIn; in_cases HIn; subst; simpl; repeat split; congruence.
Qed.

Lemma publish_edit_after_token neko sn rf e w folder rc fs :
  guarded (is_resolved EpCsrf) (is_sent EpFileEdit)
    (trace_of (V3.publish neko sn rf e w folder rc fs)) = true.
Proof. all_cases; reflexivity. Qed.

(** X3.  Every file edit of a run carries the token the CSRF request
    returned in that run and the site name of the options ([''] when there
    is none); edits are only sent in runs with a cookie, and only after the
    program has seen the CSRF request succeed. *)
Theorem edits_carry_fresh_token (args : V3.Options) (e : Env) (w : World) (fs : FS)
    (f : EditForm) :
  let tr := trace_of (V3.build_done args e w fs) in
  In f (edit_forms tr) ->
  on_csrf w = Success (csrf f)
  /\ site f = or_empty (V3.siteName args)
  /\ truthy (V3.cookie args) = true
  /\ (forall t1 c t2, tr = t1 ++ Sent c (FileEdit f) :: t2 -> resolved EpCsrf t1 = true).
Proof.
  cbv zeta. intros HIn.
  assert (G : on_csrf w = Success (csrf f)
    /\ site f = or_empty (V3.siteName args)
    /\ truthy (V3.cookie args) = true
    /\ guarded (is_resolved EpCsrf) (is_sent EpFileEdit)
         (trace_of (V3.build_done args e w fs)) = true).
  { revert HIn. run_cases args e w fs; unfold ask_site; simpl; intros HIn;
      try contradiction.
    - rewrite (edit_forms_local _ Hlocal) in HIn. contradiction.
    - rewrite edit_forms_app, (edit_forms_local _ Hlocal) in HIn. simpl in HIn.
      apply publish_edit_fields in HIn as (P1 & P2 & P3 & P4).
      rewrite (guarded_skip _ _ _ _
                 (local_silent _ _ (remote_only_resolved EpCsrf) Hlocal)
                 (local_silent _ _ (remote_only_sent EpFileEdit) Hlocal)).
      repeat split; auto.
      + rewrite new_NekoAPI_ucfg in P3. destruct (truthy (V3.cookie args)); congruence.
      + apply publish_edit_after_token. }
  destruct G as (G1 & G2 & G3 & G4).
  repeat split; auto.
  intros t1 c t2 E. eapply (guarded_spec _ _ _ G4); eauto.
Qed.

Lemma edits_token_witness :
  let f := marker_form world_ok "me" "csrf-1" in
  In f (edit_forms (trace_of (V3.build_done args_cookie demo_env world_ok demo_fs)))
  /\ on_csrf world_ok = Success (csrf f).
Proof.
  cbv zeta.
  assert (H : In (marker_form world_ok "me" "csrf-1")
                (edit_forms (trace_of (V3.build_done args_cookie demo_env world_ok demo_fs))))
    by (right; left; reflexivity).
  split; [exact H|].
  exact (proj1 (edits_carry_fresh_token args_cookie demo_env world_ok demo_fs _ H)).
Defined.

Ltac marker_fin :=
  (split; [reflexivity|]); (split; [reflexivity|]); (split; [simpl; lia|]);
  intros; try discriminate; find_in.

Lemma publish_marker_edit neko sn rf e w folder rc fs :
  let tr := trace_of (V3.publish neko sn rf e w folder rc fs) in
  resolved EpCsrf tr = true ->
  rejected EpFileEdit tr = false \/ truthy rf && truthy rc = false ->
  exists tok before,
    on_csrf w = Success tok
    /\ edit_forms tr = before ++ [marker_form w (or_empty sn) tok]
    /\ length before <= 1
    /\ (rejected EpFileEdit tr = false ->
        In (Log Info "Sent cookie request") tr).
Proof.
  all_cases; intros HR HE; try discriminate;
    try (destruct HE; discriminate);
    eexists; first [ solve [exists []; marker_fin] | solve [eexists [_]; marker_fin] ].
Qed.

(** X4.  Once the CSRF token is there, and unless an RSS edit was
    rejected, the marker edit is the last file edit of the run, after at
    most one other; it names the marker file, holds the marker text with
    the time of the marker, and carries the token.  If no edit was
    rejected, the line [Sent cookie request] is logged. *)
Theorem marker_edit_closes_metadata (args : V3.Options) (e : Env) (w : World)
    (fs : FS) :
  let tr := trace_of (V3.build_done args e w fs) in
  resolved EpCsrf tr = true ->
  rejected EpFileEdit tr = false \/ truthy (V3.rssFeed args) = false ->
  exists tok before,
    on_csrf w = Success tok
    /\ edit_forms tr = before ++ [marker_form w (or_empty (V3.siteName args)) tok]
    /\ length before <= 1
    /\ (rejected EpFileEdit tr = false -> In (Log Info "Sent cookie request") tr).
Proof.
  cbv zeta.
  run_cases args e w fs; unfold ask_site, resolved, rejected; intros HR HE;
    try discriminate.
  - simpl in HR. rewrite (local_silent _ _ (remote_only_resolved _) Hlocal) in HR.
    discriminate.
  - simpl in HR, HE. rewrite existsb_app in HR, HE.
    rewrite (local_silent _ _ (remote_only_resolved _) Hlocal) in HR.
    rewrite (local_silent _ _ (remote_only_rejected _) Hlocal) in HE.
    simpl in HR, HE.
    destruct (publish_marker_edit (V3.new_NekoAPI (V3.apiKey args) (V3.cookie args))
                (V3.siteName args) (V3.rssFeed args) e w
                (or_empty (si_folder site)) rc
                (fs_of (V3.stage (V3.rssFeed args) e w (or_empty (si_folder site)) fs))
                HR) as (tok & before & P1 & P2 & P3 & P4).
    { destruct HE as [HE|HE]; [left; exact HE|right].
      rewrite HE. reflexivity. }
    exists tok, before. simpl.
    rewrite edit_forms_app, (edit_forms_local _ Hlocal), existsb_app.
    rewrite (local_silent _ _ (remote_only_rejected _) Hlocal).
    repeat split; auto.
    intros R. right; right; apply in_or_app; right. apply P4. exact R.
Qed.

Lemma marker_edit_witness :
  exists before,
    edit_forms (trace_of (V3.build_done args_cookie demo_env world_ok demo_fs))
    = before ++ [marker_form world_ok "me" "csrf-1"].
Proof.
  destruct (marker_edit_closes_metadata args_cookie demo_env world_ok demo_fs
              eq_refl (or_introl eq_refl)) as (tok & before & H1 & H2 & _).
  injection H1 as <-. exists before. exact H2.
Defined.

(** ** Failures of the token request *)

Lemma publish_token_failure neko sn rf e w folder rc fs failure :
  let r := V3.publish neko sn rf e w folder rc fs in
  In (Rejected EpCsrf failure) (trace_of r)
  \/ In (Rejected EpSiteInfo failure) (trace_of r) ->
  result_of r = inr tt
  /\ sent EpFileEdit (trace_of r) = false
  /\ In (Log Err (upload_failed_message failure)) (trace_of r)
  /\ logged Info "Sent cookie request" (trace_of r) = false
  /\ In (Log Info (deployed_message e)) (trace_of r).
Proof.
  all_cases; intros [HIn|HIn]; in_cases HIn;
    repeat split; try reflexivity; find_in.
Qed.

Lemma stage_never_says_sent rf e w folder fs :
  logged Info "Sent cookie request" (trace_of (V3.stage rf e w folder fs)) = false.
Proof. all_cases; reflexivity. Qed.

(** X5.  A failure of the CSRF request, or of the site-information request
    made for it after the import left, does not end the run: the run
    returns normally, no file edit is sent, the failure is logged by the
    [catch] of [finalizeUpload], [Sent cookie request] is not logged, and
    the run still reports the deployment. *)
Theorem token_failure_absorbed (args : V3.Options) (e : Env) (w : World) (fs : FS)
    (failure : JsError) :
  let r := V3.build_done args e w fs in
  In (Rejected EpCsrf failure) (trace_of r)
  \/ (sent EpImport (trace_of r) = true
      /\ In (Rejected EpSiteInfo failure) (trace_of r)) ->
  result_of r = inr tt
  /\ sent EpFileEdit (trace_of r) = false
  /\ In (Log Err (upload_failed_message failure)) (trace_of r)
  /\ logged Info "Sent cookie request" (trace_of r) = false
  /\ In (Log Info (deployed_message e)) (trace_of r).
Proof.
  cbv zeta.
  run_cases args e w fs; unfold ask_site, sent, logged; intros [H|[HS H]];
    try (in_cases H; fail); try discriminate.
  - destruct H as [H|[H|H]]; try discriminate.
    exfalso. revert H. apply local_not_in; [reflexivity|exact Hlocal].
  - simpl in HS. rewrite (local_silent _ _ (remote_only_sent _) Hlocal) in HS.
    discriminate.
  - destruct H as [H|[H|H]]; try discriminate.
    apply in_app_or in H as [H|H];
      [exfalso; revert H; apply local_not_in; [reflexivity|exact Hlocal]|].
    destruct (publish_token_failure _ _ _ _ _ _ _ _ _ (or_introl H))
      as (P1 & P2 & P3 & P4 & P5).
    unfold sent, logged in *. simpl. rewrite !existsb_app, P2, P4.
    rewrite (local_silent _ _ (remote_only_sent _) Hlocal).
    pose proof (stage_never_says_sent (V3.rssFeed args) e w (or_empty (si_folder site)) fs)
      as Q. unfold logged in Q. rewrite Q.
    repeat split; auto; right; right; apply in_or_app; right; assumption.
  - destruct H as [H|[H|H]]; try discriminate.
    apply in_app_or in H as [H|H];
      [exfalso; revert H; apply local_not_in; [reflexivity|exact Hlocal]|].
    destruct (publish_token_failure _ _ _ _ _ _ _ _ _ (or_intror H))
      as (P1 & P2 & P3 & P4 & P5).
    unfold sent, logged in *. simpl. rewrite !existsb_app, P2, P4.
    rewrite (local_silent _ _ (remote_only_sent _) Hlocal).
    pose proof (stage_never_says_sent (V3.rssFeed args) e w (or_empty (si_folder site)) fs)
      as Q. unfold logged in Q. rewrite Q.
    repeat split; auto; right; right; apply in_or_app; right; assumption.
Qed.

Lemma token_failure_witness :
  let r := V3.build_done args_cookie demo_env world_csrf_fails demo_fs in
  result_of r = inr tt /\ sent EpFileEdit (trace_of r) = false.
Proof.
  cbv zeta.
  assert (H : In (Rejected EpCsrf (ApiError EpCsrf 401 "bad cookie"))
                (trace_of (V3.build_done args_cookie demo_env world_csrf_fails demo_fs)))
    by (vm_compute; tauto).
  destruct (token_failure_absorbed args_cookie demo_env world_csrf_fails demo_fs _
              (or_introl H)) as (H1 & H2 & _).
  split; assumption.
Defined.

(** ** The report of success and the accepted run *)

Lemma stage_never_reports rf e w folder fs :
  ~ In (Log Info (deployed_message e)) (trace_of (V3.stage rf e w folder fs)).
Proof. all_cases; intros H; in_cases H. Qed.

Lemma publish_reports_iff neko sn rf e w folder rc fs :
  let r := V3.publish neko sn rf e w folder rc fs in
  (In (Log Info (deployed_message e)) (trace_of r) <-> result_of r = inr tt)
  /\ (result_of r = inr tt ->
      exists before,
        trace_of r = before ++ [Log Info (deployed_message e);
                                Fs (Unlink (V3.zipPath e folder));
                                Fs (RmTree (V3.tmpBuildDir e))]).
Proof.
  all_cases; (split; [split; intros H; try discriminate; try reflexivity;
                      try (in_cases H; fail); find_in|]);
    intros H; try discriminate;
    match goal with
    | |- exists b, ?l = _ => exists (firstn (length l - 3) l); reflexivity
    end.
Qed.

(** X6.  The line reporting the deployment is logged exactly in the runs
    that return normally; in those runs it is followed by the removal of
    the archive and of the staging directory, and by nothing else. *)
Theorem success_line_iff_normal_return (args : V3.Options) (e : Env) (w : World)
    (fs : FS) :
  let r := V3.build_done args e w fs in
  (In (Log Info (deployed_message e)) (trace_of r) <-> result_of r = inr tt)
  /\ (result_of r = inr tt ->
      exists before site,
        on_siteInfo w = Success site
        /\ trace_of r =
           before ++ [Log Info (deployed_message e);
                      Fs (Unlink (V3.zipPath e (or_empty (si_folder site))));
                      Fs (RmTree (V3.tmpBuildDir e))]).
Proof.
  cbv zeta.
  run_cases args e w fs; unfold ask_site.
  - split; [split; intros H; [in_cases H|discriminate]|discriminate].
  - split; [split; intros H; [in_cases H|discriminate]|discriminate].
  - split; [split; intros H; [|discriminate]|discriminate].
    destruct H as [H|[H|H]]; try discriminate.
    exfalso. revert H. apply stage_never_reports.
  - destruct (publish_reports_iff (V3.new_NekoAPI (V3.apiKey args) (V3.cookie args))
                (V3.siteName args) (V3.rssFeed args) e w (or_empty (si_folder site)) rc
                (fs_of (V3.stage (V3.rssFeed args) e w (or_empty (si_folder site)) fs)))
      as [P1 P2].
    split; [split; intros H|intros H].
    + destruct H as [H|[H|H]]; try discriminate.
      apply in_app_or in H as [H|H]; [exfalso; revert H; apply stage_never_reports|].
      now apply P1.
    + right; right; apply in_or_app; right. now apply P1.
    + destruct (P2 H) as [before Hb]. rewrite Hb.
      eexists (_ :: _ :: _ ++ before), site. split; [reflexivity|].
      simpl. rewrite <- app_assoc. reflexivity.
  - split; [split; intros H; [in_cases H|discriminate]|discriminate].
Qed.






(** ** The name of the archive and the search for the feed *)

Lemma no_slash_app (s t : string) :
  no_slash (s ++ t)%string = no_slash s && no_slash t.
Proof.
  induction s as [|c s IH]; simpl; [reflexivity|].
  rewrite IH. apply andb_assoc.
Qed.

Lemma split_slash_aux_head (s cur : string) :
  no_slash cur = true -> no_slash (hd ""%string (split_slash_aux s cur)) = true.
Proof.
  revert cur. induction s as [|c s IH]; intros cur H; simpl; [exact H|].
  destruct (Ascii.eqb c "/") eqn:E; simpl; [exact H|].
  apply IH. rewrite no_slash_app, H. simpl. now rewrite E.
Qed.

Lemma split_slash_aux_plain (s cur : string) :
  no_slash s = true -> split_slash_aux s cur = [(cur ++ s)%string].
Proof.
  revert cur. induction s as [|c s IH]; intros cur H; simpl in *.
  - f_equal. induction cur; simpl; congruence.
  - apply andb_prop in H as [H1 H2]. apply negb_true_iff in H1. rewrite H1.
    rewrite (IH _ H2). f_equal.
    clear. induction cur; simpl; congruence.
Qed.

Lemma length_append (s t : string) :
  String.length (s ++ t)%string = String.length s + String.length t.
Proof. induction s; simpl; congruence. Qed.

Lemma eqb_length (s t : string) :
  String.length s <> String.length t -> String.eqb s t = false.
Proof.
  intros H. destruct (String.eqb_spec s t) as [->|]; [contradiction|reflexivity].
Qed.

Lemma normalize_onto_name (base : Path) (name : string) :
  3 <= String.length name ->
  normalize_onto base [name] = base ++ [name].
Proof.
  intros H. simpl.
  rewrite !eqb_length by (simpl; lia). reflexivity.
Qed.

(** X8.  The name of the archive has no slash in it, whatever the folder
    the site reports: the archive is a file directly in the working
    directory, with a name ending in [.zip]. *)
Theorem archive_lands_in_working_directory (e : Env) (folder : string) :
  no_slash (V3.zipFileName folder) = true
  /\ join (cwd e) (V3.zipFileName folder) = V3.zipPath e folder
  /\ exists name, V3.zipPath e folder = cwd e ++ [name]
                  /\ ends_with name ".zip" = true.
Proof.
  assert (N : no_slash (V3.zipFileName folder) = true).
  { unfold V3.zipFileName. rewrite no_slash_app.
    unfold split_slash. rewrite split_slash_aux_head by reflexivity. reflexivity. }
  split; [exact N|]. split.
  - unfold join, V3.zipPath, split_slash.
    rewrite (split_slash_aux_plain _ _ N). simpl String.append.
    apply normalize_onto_name.
    unfold V3.zipFileName. rewrite length_append. simpl. lia.
  - exists (V3.zipFileName folder). split; [reflexivity|].
    unfold ends_with, V3.zipFileName. rewrite length_append. simpl String.length.
    destruct (Nat.ltb_spec (String.length (hd ""%string (split_slash folder)) + 4) 4);
      [lia|].
    replace (String.length (hd ""%string (split_slash folder)) + 4 - 4)
      with (String.length (hd ""%string (split_slash folder))) by lia.
    generalize (hd ""%string (split_slash folder)). intros s.
    induction s as [|c s IH]; simpl; [reflexivity|exact IH].
Qed.



(** ** What staging copies and archives *)

Lemma strip_prefix_app (p r : Path) : strip_prefix p (p ++ r) = Some r.
Proof. now apply strip_prefix_some. Qed.

(** The file system staging leaves behind when it succeeds: the staging
    directory cleared and made, the rename if [404.html] was there, the
    copy, and the archive. *)
Lemma stage_fs_shape rf e w folder fs rc :
  result_of (V3.stage rf e w folder fs) = inr rc ->
  exists cleared renamed,
    (cleared = write_node (V3.tmpBuildDir e) Dir (rm_tree (V3.tmpBuildDir e) fs)
       /\ existsSync (V3.tmpBuildDir e) fs = true
     \/ cleared = write_node (V3.tmpBuildDir e) Dir fs
        /\ existsSync (V3.tmpBuildDir e) fs = false)
    /\ (renamed = move_tree (path404 e) (pathNotFound e) cleared
          /\ existsSync (path404 e) cleared = true
        \/ renamed = cleared /\ existsSync (path404 e) cleared = false)
    /\ fs_of (V3.stage rf e w folder fs)
       = write_node (V3.zipPath e folder)
           (File (archiver w (subtree (V3.tmpBuildDir e)
                                (copy_tree (outDir e) (V3.stageDir e folder) renamed))))
           (copy_tree (outDir e) (V3.stageDir e folder) renamed).
Proof.
  unfold_run. repeat (simpl; break_match); simpl; intros H; try discriminate;
    eexists; eexists; (split; [|split; [|reflexivity]]);
    first [ left; split; first [reflexivity|assumption]
          | right; split; first [reflexivity|assumption] ].
Qed.

Lemma apart_sym (a b : Path) : apart a b = apart b a.
Proof. unfold apart. apply andb_comm. Qed.

Lemma apart_below (a b r1 r2 : Path) :
  apart a b = true -> is_prefix (a ++ r1) (b ++ r2) = false.
Proof.
  intros H. destruct (is_prefix (a ++ r1) (b ++ r2)) eqn:E; [|reflexivity].
  pose proof (is_prefix_trans _ _ _ (is_prefix_app a r1) E) as A.
  pose proof (is_prefix_app b r2) as B.
  unfold apart in H. apply andb_prop in H as [H1 H2].
  apply negb_true_iff in H1, H2.
  destruct (is_prefix_comparable _ _ _ A B); congruence.
Qed.

Lemma is_prefix_snoc (o : Path) (a b : string) :
  is_prefix (o ++ [a]) (o ++ [b]) = String.eqb a b.
Proof.
  induction o as [|x o IH]; simpl.
  - now rewrite andb_true_r.
  - now rewrite String.eqb_refl.
Qed.

Lemma is_prefix_longer (p r : Path) : r <> [] -> is_prefix (p ++ r) p = false.
Proof.
  intros H. destruct (is_prefix (p ++ r) p) eqn:E; [|reflexivity].
  apply is_prefix_spec in E as [x Hx].
  apply (f_equal (@length string)) in Hx. rewrite !length_app in Hx.
  destruct r; [contradiction|]. simpl in Hx. lia.
Qed.

(** An untouched file of the build output, as the copy below the staging
    directory shows it when staging has succeeded. *)
Lemma stage_tree rf e w folder fs rc rest text :
  result_of (V3.stage rf e w folder fs) = inr rc ->
  apart (outDir e) (V3.tmpBuildDir e) = true ->
  is_prefix (path404 e) (outDir e ++ rest) = false ->
  is_prefix (pathNotFound e) (outDir e ++ rest) = false ->
  fs (outDir e ++ rest) = Some (File text) ->
  exists staged,
    fs_of (V3.stage rf e w folder fs)
    = write_node (V3.zipPath e folder)
        (File (archiver w (subtree (V3.tmpBuildDir e) staged))) staged
    /\ staged (V3.stageDir e folder ++ rest) = Some (File text).
Proof.
  intros Hst Htmp H4 Hn Hfile.
  destruct (stage_fs_shape _ _ _ _ _ _ Hst) as (cleared & renamed & Hc & Hr & ->).
  eexists. split; [reflexivity|].
  assert (Ht : is_prefix (V3.tmpBuildDir e) (outDir e ++ rest) = false)
    by (apply (in_output_not_in (outDir e)); [exact Htmp|apply is_prefix_app]).
  assert (C : cleared (outDir e ++ rest) = Some (File text)).
  { destruct Hc as [[-> _]|[-> _]]; unfold write_node, rm_tree;
      rewrite (path_eqb_false_of_prefix _ _ Ht), ?Ht; exact Hfile. }
  assert (R : renamed (outDir e ++ rest) = Some (File text)).
  { destruct Hr as [[-> _]|[-> _]]; [|exact C].
    unfold move_tree. rewrite (strip_prefix_none _ _ Hn), H4. exact C. }
  unfold copy_tree. rewrite strip_prefix_app, R. reflexivity.
Qed.

(** X10.  After a successful staging, every file of the build output other
    than [404.html] and [not_found.html] is found with the same text at
    the same place below the staging folder (the output and the staging
    directory lying apart, and the archive outside the staging folder). *)
Theorem staged_copy_holds_output (rf : option string) (e : Env) (w : World)
    (folder : string) (fs : FS) (rc : option string) (rest : Path) (text : string) :
  result_of (V3.stage rf e w folder fs) = inr rc ->
  apart (outDir e) (V3.tmpBuildDir e) = true ->
  is_prefix (V3.stageDir e folder) (V3.zipPath e folder) = false ->
  is_prefix (path404 e) (outDir e ++ rest) = false ->
  is_prefix (pathNotFound e) (outDir e ++ rest) = false ->
  fs (outDir e ++ rest) = Some (File text) ->
  fs_of (V3.stage rf e w folder fs) (V3.stageDir e folder ++ rest) = Some (File text).
Proof.
  intros Hst Htmp Hzip H4 Hn Hfile.
  destruct (stage_tree _ _ _ _ _ _ _ _ Hst Htmp H4 Hn Hfile) as (staged & -> & S).
  unfold write_node.
  assert (Z : path_eqb (V3.zipPath e folder) (V3.stageDir e folder ++ rest) = false).
  { destruct (path_eqb (V3.zipPath e folder) (V3.stageDir e folder ++ rest)) eqn:E;
      [|reflexivity].
    apply path_eqb_eq in E. rewrite E, is_prefix_app in Hzip. discriminate. }
  rewrite Z. exact S.
Qed.

Lemma staged_copy_witness :
  fs_of (V3.stage (Some "rss.xml") demo_env world_ok "build" demo_fs)
        ["proj"; ".build-temp"; "build"; "index.html"]
  = Some (File "<html></html>").
Proof.
  exact (staged_copy_holds_output (Some "rss.xml") demo_env world_ok "build" demo_fs
           _ ["index.html"] "<html></html>"
           eq_refl eq_refl eq_refl eq_refl eq_refl eq_refl).
Defined.

(** X11.  After a successful staging the archive file holds the archive of
    the whole staging directory: in the archived tree a file of the build
    output is found below the segments of the target folder. *)
Theorem archive_holds_output_under_folder (rf : option string) (e : Env) (w : World)
    (folder : string) (fs : FS) (rc : option string) (segs rest : Path) (text : string) :
  result_of (V3.stage rf e w folder fs) = inr rc ->
  apart (outDir e) (V3.tmpBuildDir e) = true ->
  V3.stageDir e folder = V3.tmpBuildDir e ++ segs ->
  is_prefix (path404 e) (outDir e ++ rest) = false ->
  is_prefix (pathNotFound e) (outDir e ++ rest) = false ->
  fs (outDir e ++ rest) = Some (File text) ->
  exists tree,
    fs_of (V3.stage rf e w folder fs) (V3.zipPath e folder)
    = Some (File (archiver w tree))
    /\ tree (segs ++ rest) = Some (File text).
Proof.
  intros Hst Htmp Hseg H4 Hn Hfile.
  destruct (stage_tree _ _ _ _ _ _ _ _ Hst Htmp H4 Hn Hfile) as (staged & -> & S).
  exists (subtree (V3.tmpBuildDir e) staged). split.
  - unfold write_node. rewrite path_eqb_refl. reflexivity.
  - unfold subtree. rewrite app_assoc, <- Hseg. exact S.
Qed.

Lemma archive_holds_output_witness :
  exists tree,
    fs_of (V3.stage (Some "rss.xml") demo_env world_ok "build" demo_fs) ["proj"; "build.zip"]
    = Some (File (archiver world_ok tree))
    /\ tree ["build"; "index.html"] = Some (File "<html></html>").
Proof.
  exact (archive_holds_output_under_folder (Some "rss.xml") demo_env world_ok "build"
           demo_fs _ ["build"] ["index.html"] "<html></html>"
           eq_refl eq_refl eq_refl eq_refl eq_refl eq_refl).
Defined.

(** X12.  When the build output has a file [404.html], a successful staging
    leaves the build output without [404.html] and with its text in
    [not_found.html], and the staged copy shows the same: [not_found.html]
    with that text and no [404.html] (no stale staging entries being left
    where there was no staging directory). *)
Theorem staging_renames_not_found_page (rf : option string) (e : Env) (w : World)
    (folder : string) (fs : FS) (rc : option string) (text : string) :
  result_of (V3.stage rf e w folder fs) = inr rc ->
  apart (outDir e) (V3.tmpBuildDir e) = true ->
  apart (outDir e) (V3.stageDir e folder) = true ->
  is_prefix (V3.tmpBuildDir e) (V3.stageDir e folder) = true ->
  is_prefix (V3.stageDir e folder) (V3.zipPath e folder) = false ->
  is_prefix (outDir e) (V3.zipPath e folder) = false ->
  (existsSync (V3.tmpBuildDir e) fs = false ->
   fs (V3.stageDir e folder ++ ["404.html"]) = None) ->
  fs (path404 e) = Some (File text) ->
  let staged := fs_of (V3.stage rf e w folder fs) in
  staged (path404 e) = None
  /\ staged (pathNotFound e) = Some (File text)
  /\ staged (V3.stageDir e folder ++ ["not_found.html"]) = Some (File text)
  /\ staged (V3.stageDir e folder ++ ["404.html"]) = None.
Proof.
  intros Hst Htmp Hsd Hin Hzip Hoz Hempty Hfile. cbv zeta.
  destruct (stage_fs_shape _ _ _ _ _ _ Hst) as (cleared & renamed & Hc & Hr & ->).
  assert (T4 : is_prefix (V3.tmpBuildDir e) (path404 e) = false)
    by (apply (in_output_not_in (outDir e)); [exact Htmp|apply is_prefix_app]).
  assert (C4 : cleared (path404 e) = Some (File text)).
  { destruct Hc as [[-> _]|[-> _]]; unfold write_node, rm_tree;
      rewrite (path_eqb_false_of_prefix _ _ T4), ?T4; exact Hfile. }
  assert (Er : renamed = move_tree (path404 e) (pathNotFound e) cleared).
  { destruct Hr as [[-> _]|[_ Hx]]; [reflexivity|].
    unfold existsSync in Hx. rewrite C4 in Hx. discriminate. }
  subst renamed. clear Hr.
  assert (N4 : is_prefix (pathNotFound e) (path404 e) = false)
    by (unfold pathNotFound, path404; rewrite is_prefix_snoc; reflexivity).
  assert (R4 : move_tree (path404 e) (pathNotFound e) cleared (path404 e) = None).
  { unfold move_tree. rewrite (strip_prefix_none _ _ N4), is_prefix_refl. reflexivity. }
  assert (RN : move_tree (path404 e) (pathNotFound e) cleared (pathNotFound e)
               = Some (File text)).
  { unfold move_tree.
    rewrite <- (app_nil_r (pathNotFound e)) at 2. rewrite strip_prefix_app.
    rewrite app_nil_r. exact C4. }
  assert (Zout : forall p, is_prefix (outDir e) p = true ->
                           path_eqb (V3.zipPath e folder) p = false).
  { intros p Hp. destruct (path_eqb (V3.zipPath e folder) p) eqn:E; [|reflexivity].
    apply path_eqb_eq in E. subst p. congruence. }
  assert (Zst : forall r, path_eqb (V3.zipPath e folder) (V3.stageDir e folder ++ r) = false).
  { intros r. destruct (path_eqb (V3.zipPath e folder) (V3.stageDir e folder ++ r)) eqn:E;
      [|reflexivity].
    apply path_eqb_eq in E. rewrite E, is_prefix_app in Hzip. discriminate. }
  assert (Sout : forall x, is_prefix (V3.stageDir e folder) (outDir e ++ [x]) = false).
  { intros x. rewrite <- (app_nil_r (V3.stageDir e folder)).
    apply apart_below. rewrite apart_sym. exact Hsd. }
  assert (Oabove : forall x, is_prefix (outDir e ++ [x]) (V3.stageDir e folder) = false).
  { intros x. rewrite <- (app_nil_r (V3.stageDir e folder)).
    apply apart_below. exact Hsd. }
  unfold write_node, copy_tree.
  repeat split.
  - rewrite (Zout (path404 e) (is_prefix_app _ _)).
    unfold path404 at 1. rewrite (strip_prefix_none _ _ (Sout _)).
    fold (path404 e). rewrite R4. unfold path404. rewrite Oabove. reflexivity.
  - rewrite (Zout (pathNotFound e) (is_prefix_app _ _)).
    unfold pathNotFound at 1. rewrite (strip_prefix_none _ _ (Sout _)).
    fold (pathNotFound e). rewrite RN. reflexivity.
  - rewrite Zst, strip_prefix_app. fold (pathNotFound e). rewrite RN. reflexivity.
  - rewrite Zst, strip_prefix_app. fold (path404 e). rewrite R4.
    unfold move_tree.
    assert (A1 : is_prefix (pathNotFound e) (V3.stageDir e folder ++ ["404.html"]) = false)
      by (apply apart_below; exact Hsd).
    assert (A2 : is_prefix (path404 e) (V3.stageDir e folder ++ ["404.html"]) = false)
      by (apply apart_below; exact Hsd).
    rewrite (strip_prefix_none _ _ A1), A2.
    assert (U : is_prefix (V3.tmpBuildDir e) (V3.stageDir e folder ++ ["404.html"]) = true)
      by (eapply is_prefix_trans; [exact Hin|apply is_prefix_app]).
    assert (Ne : path_eqb (V3.tmpBuildDir e) (V3.stageDir e folder ++ ["404.html"]) = false).
    { destruct (path_eqb (V3.tmpBuildDir e) (V3.stageDir e folder ++ ["404.html"])) eqn:E;
        [|reflexivity].
      apply path_eqb_eq in E. rewrite E in Hin.
      rewrite is_prefix_longer in Hin by discriminate. discriminate. }
    destruct Hc as [[-> _]|[-> Hx]]; unfold write_node, rm_tree; rewrite Ne.
    + rewrite U. reflexivity.
    + rewrite (Hempty Hx). reflexivity.
Qed.

Lemma staging_404_witness :
  let staged := fs_of (V3.stage None demo_env world_ok "build" demo_fs) in
  staged ["proj"; "dist"; "404.html"] = None
  /\ staged ["proj"; ".build-temp"; "build"; "not_found.html"] = Some (File "not here").
Proof.
  cbv zeta.
  destruct (staging_renames_not_found_page None demo_env world_ok "build" demo_fs
              _ "not here" eq_refl eq_refl eq_refl eq_refl eq_refl eq_refl
              (fun _ => eq_refl) eq_refl) as (H1 & _ & H3 & _).
  split; assumption.
Defined.

(** ** Version 2.0.3: the rethrow *)

Ltac unfold_v2 :=
  unfold V2.finalizeUpload, V2.getCSRFToken, V2.editFileCSRF,
    await_async, try_catch, request, await, log, emit, ret, throw, bind,
    trace_of, result_of, fs_of.

(** X13.  In version 2.0.3 on the client library, with a cookie,
    [finalizeUpload] throws exactly the errors with which a request it
    awaited was rejected; it has then logged the failure and not
    [Sent cookie request]; and it returns normally exactly when
    [Sent cookie request] was logged. *)
Theorem v2_finalize_rethrows (w : World) (big : V2.BigFileExt) (api : V2.NekoAPI)
    (uc : Config) (rssFile rssContent : option string) (fs : FS) (failure : JsError) :
  V2.ucfg api = Some uc ->
  let r := V2.finalizeUpload w big api rssFile rssContent fs in
  (result_of r = inl failure <-> exists ep, In (Rejected ep failure) (trace_of r))
  /\ (result_of r = inl failure ->
      In (Log Err (upload_failed_message failure)) (trace_of r)
      /\ logged Info "Sent cookie request" (trace_of r) = false)
  /\ (result_of r = inr (Value tt) <->
      logged Info "Sent cookie request" (trace_of r) = true).
Proof.
  intros Hu. cbv zeta. unfold_v2. rewrite Hu.
  repeat (simpl; break_match); simpl;
    (split; [split; [intros H; first [discriminate
                                     |injection H as <-; eexists; find_in]
                    |intros [ep H]; in_cases H]
            |split; [intros H; first [discriminate
                                     |injection H as <-; split;
                                      [find_in|reflexivity]]
                    |split; intros H; first [discriminate|reflexivity]]]).
Qed.

Lemma v2_finalize_witness :
  let api := V2.new_NekoAPI "KEY" (Some "COOKIE") in
  result_of (V2.finalizeUpload world_csrf_fails
               {| V2.id := "session-1"; V2.owner := V2.config api |}
               api None None demo_fs)
  = inl (ApiError EpCsrf 401 "bad cookie").
Proof.
  cbv zeta.
  apply (proj2 (proj1 (v2_finalize_rethrows world_csrf_fails
                         {| V2.id := "session-1";
                            V2.owner := V2.config (V2.new_NekoAPI "KEY" (Some "COOKIE")) |}
                         (V2.new_NekoAPI "KEY" (Some "COOKIE"))
                         {| cfg_apiKey := ""; cfg_appName := V2.appName_literal;
                            cfg_headers := V2.ucfg_headers "COOKIE" |}
                         None None demo_fs (ApiError EpCsrf 401 "bad cookie") eq_refl))).
  exists EpCsrf. vm_compute. tauto.
Defined.

(** ** The [fetch] version: credentials *)

Section Every.
Variable P : Event -> Prop.
Hypothesis P_local : forall ev, is_any_sent ev = false -> P ev.

Lemma every_ret {A} (a : A) : every_event P (ret a).
Proof. intros fs. constructor. Qed.

Lemma every_throw {A} (x : JsError) : every_event P (@throw A x).
Proof. intros fs. constructor. Qed.

Lemma every_bind {A B} (m : M A) (f : A -> M B) :
  every_event P m -> (forall a, every_event P (f a)) -> every_event P (bind m f).
Proof.
  intros Hm Hf fs. unfold bind. specialize (Hm fs).
  destruct (m fs) as [[[x|a] fs1] t1]; unfold trace_of in *; simpl in *; [exact Hm|].
  specialize (Hf a fs1). destruct (f a fs1) as [[r fs2] t2]. simpl in *.
  apply Forall_app. split; assumption.
Qed.

Lemma every_try_catch {A} (m : M A) (h : JsError -> M A) :
  every_event P m -> (forall x, every_event P (h x)) -> every_event P (try_catch m h).
Proof.
  intros Hm Hh fs. unfold try_catch. specialize (Hm fs).
  destruct (m fs) as [[[x|a] fs1] t1]; unfold trace_of in *; simpl in *; [|exact Hm].
  specialize (Hh x fs1). destruct (h x fs1) as [[r fs2] t2]. simpl in *.
  apply Forall_app. split; assumption.
Qed.

Lemma every_emit (ev : Event) : P ev -> every_event P (emit ev).
Proof. intros H fs. repeat constructor. exact H. Qed.

Lemma every_log lvl msg : every_event P (log lvl msg).
Proof. apply every_emit. now apply P_local. Qed.

Lemma every_fs_step {A} (m : M A) :
  (forall fs, existsb is_any_sent (trace_of (m fs)) = false) -> every_event P m.
Proof.
  intros H fs. specialize (H fs). apply Forall_forall. intros ev HIn.
  apply P_local. destruct (is_any_sent ev) eqn:E; [|reflexivity].
  assert (existsb is_any_sent (trace_of (m fs)) = true)
    by (apply existsb_exists; eauto).
  congruence.
Qed.

Lemma every_fetch (h : Headers) (r : Request) (o : V2Fetch.FetchOutcome) :
  P (Sent (ViaFetch h) r) -> every_event P (V2Fetch.fetch h r o).
Proof.
  intros H. unfold V2Fetch.fetch.
  apply every_bind; [now apply every_emit|]. intros _.
  destruct o as [m|resp].
  - apply every_bind; [apply every_emit; now apply P_local|]. intros _. apply every_throw.
  - apply every_bind; [apply every_emit; apply P_local; now destruct (V2Fetch.ok resp)|].
    intros _. apply every_ret.
Qed.

End Every.

Ltac fs_step :=
  apply every_fs_step; [assumption|];
  let fs := fresh "fs" in
  intros fs;
  unfold fs_existsSync, fs_rmSync, fs_mkdirSync, fs_readFileSync, fs_cpSync, fs_unlink,
    V2Fetch.zipDirectory, trace_of;
  simpl; repeat break_match; reflexivity.


Lemma fetch_credentials_local args ev :
  is_any_sent ev = false -> fetch_credentials args ev.
Proof. destruct ev; simpl; intros H; try discriminate; exact I. Qed.

Lemma fetch_finalize_credentials args w bigId rssFile rssContent :
  every_event (fetch_credentials args)
    (V2Fetch.finalizeUpload w
       (V2Fetch.getToken (or_empty (V2Fetch.apiKey args)) None)
       (V2Fetch.getToken (or_empty (V2Fetch.apiKey args)) (V2Fetch.cookie args))
       bigId rssFile rssContent).
Proof.
  pose proof (fetch_credentials_local args) as L.
  unfold V2Fetch.finalizeUpload, V2Fetch.getCSRFToken, V2Fetch.response_json.
  assert (K : forall r, by_api_key (V2Fetch.cookie args) (endpoint_of r) = true ->
                        fetch_credentials args
                          (Sent (ViaFetch (V2Fetch.getToken (or_empty (V2Fetch.apiKey args)) None)) r)).
  { intros r Hr. simpl. rewrite Hr. split; reflexivity. }
  apply every_bind; [apply every_fetch; [exact L|apply K; reflexivity]|]. intros response.
  destruct (negb (V2Fetch.ok response)); [apply every_throw|].
  destruct (truthy (V2Fetch.cookie args)) eqn:Hc.
  - assert (C : forall r, by_api_key (V2Fetch.cookie args) (endpoint_of r) = false ->
                 fetch_credentials args
                   (Sent (ViaFetch (V2Fetch.getToken (or_empty (V2Fetch.apiKey args))
                                      (V2Fetch.cookie args))) r)).
    { intros r Hr. simpl. rewrite Hr. unfold V2Fetch.getToken. rewrite Hc.
      split; reflexivity. }
    assert (B : forall ep, match ep with EpBigCreate | EpBigAppend | EpImport => False
                           | _ => True end ->
                by_api_key (V2Fetch.cookie args) ep = false).
    { intros ep. unfold by_api_key. rewrite Hc. destruct ep; simpl; tauto. }
    replace (negb (truthy (header "Cookie"
               (V2Fetch.getToken (or_empty (V2Fetch.apiKey args)) (V2Fetch.cookie args)))))
      with false.
    2:{ unfold V2Fetch.getToken. rewrite Hc. simpl.
        destruct (V2Fetch.cookie args); reflexivity. }
    apply every_bind.
    + apply every_bind; [apply every_fetch; [exact L|apply C, B; exact I]|]. intros ures.
      apply every_bind; [destruct (V2Fetch.json ures); [apply every_ret|apply every_throw]|].
      intros username.
      apply every_bind.
      * apply every_fetch; [exact L|].
        cbn [fetch_credentials endpoint_of]. rewrite (B EpCsrf I).
        unfold V2Fetch.getToken. rewrite Hc. split; reflexivity.
      * intros resp. destruct (negb (V2Fetch.ok resp)); [apply every_throw|apply every_ret].
    + intros tok.
      apply every_bind.
      * destruct (truthy rssFile && truthy rssContent); [|apply every_ret].
        apply every_bind; [apply every_fetch; [exact L|apply C, B; exact I]|].
        intros resp. destruct (negb (V2Fetch.ok resp));
          [now apply every_log|apply every_ret].
      * intros _.
        apply every_bind; [apply every_fetch; [exact L|apply C, B; exact I]|].
        intros resp. destruct (negb (V2Fetch.ok resp)); now apply every_log.
  - replace (negb (truthy (header "Cookie"
               (V2Fetch.getToken (or_empty (V2Fetch.apiKey args)) (V2Fetch.cookie args)))))
      with true by (unfold V2Fetch.getToken; rewrite Hc; reflexivity).
    now apply every_log.
Qed.

(** X14.  The credentials of the requests of the [fetch] version.  Create,
    append and import always carry the API key in [Authorization] and no
    cookie.  Every other request (delete, site information, CSRF, file
    edit) carries the API key when no cookie is configured, and with a
    cookie carries the cookie and no [Authorization] header. *)
Theorem fetch_request_credentials (args : V2Fetch.Options) (e : Env)
    (w : V2Fetch.FetchWorld) (fs : FS) (h : Headers) (r : Request) :
  In (Sent (ViaFetch h) r) (trace_of (V2Fetch.build_done args e w fs)) ->
  let key := by_api_key (V2Fetch.cookie args) (endpoint_of r) in
  header "Authorization" h
  = (if key then Some (or_empty (V2Fetch.apiKey args)) else None)
  /\ header "Cookie" h
     = (if key then None else Some ("token=" ++ or_empty (V2Fetch.cookie args))%string).
Proof.
  intros HIn.
  enough (E : every_event (fetch_credentials args) (V2Fetch.build_done args e w)).
  { specialize (E fs). rewrite Forall_forall in E. exact (E _ HIn). }
  clear HIn fs h r.
  pose proof (fetch_credentials_local args) as L.
  unfold V2Fetch.build_done.
  destruct (negb (truthy (V2Fetch.apiKey args)));
    [apply every_bind; [now apply every_log|intros _; apply every_throw]|].
  destruct (negb (truthy (V2Fetch.folder args)));
    [apply every_bind; [now apply every_log|intros _; apply every_throw]|].
  cbv zeta.
  assert (K : forall r, by_api_key (V2Fetch.cookie args) (endpoint_of r) = true ->
                        fetch_credentials args
                          (Sent (ViaFetch (V2Fetch.getToken (or_empty (V2Fetch.apiKey args)) None)) r)).
  { intros r Hr. simpl. rewrite Hr. split; reflexivity. }
  apply every_bind; [fs_step|]. intros stale.
  apply every_bind; [destruct stale; [fs_step|apply every_ret]|]. intros _.
  apply every_bind; [fs_step|]. intros _.
  apply every_bind; [intros fs; constructor|]. intros rssFile.
  apply every_bind.
  { destruct rssFile; [|apply every_ret].
    apply every_bind; [fs_step|]. intros s. apply every_ret. }
  intros rssContent.
  apply every_bind; [fs_step|]. intros _.
  apply every_bind; [fs_step|]. intros _.
  apply every_bind; [now apply every_log|]. intros _.
  apply every_bind.
  { unfold V2Fetch.initFileUpload, V2Fetch.response_json.
    apply every_bind.
    - apply every_try_catch.
      + apply every_bind; [apply every_fetch; [exact L|apply K; reflexivity]|].
        intros resp. destruct (negb (V2Fetch.ok resp)); [apply every_throw|apply every_ret].
      + intros x. apply every_bind; [apply every_emit; now apply L|].
        intros _. apply every_throw.
    - intros resp. destruct (V2Fetch.json resp); [apply every_ret|apply every_throw]. }
  intros bigId.
  apply every_bind; [now apply every_log|]. intros _.
  apply every_bind.
  { unfold V2Fetch.uploadFile.
    apply every_bind; [fs_step|]. intros buf.
    apply every_bind; [apply every_fetch; [exact L|apply K; reflexivity]|].
    intros resp. destruct (negb (V2Fetch.ok resp)); [apply every_throw|apply every_ret]. }
  intros _.
  apply every_bind; [now apply every_log|]. intros _.
  apply every_bind.
  { apply every_try_catch; [|intros _; apply every_ret].
    apply every_bind; [|intros _; apply every_ret].
    apply every_fetch; [exact L|].
    simpl. unfold V2Fetch.getToken.
    destruct (truthy (V2Fetch.cookie args)); split; reflexivity. }
  intros _.
  apply every_bind; [apply fetch_finalize_credentials|]. intros _.
  apply every_bind; [now apply every_log|]. intros _.
  apply every_bind; [fs_step|]. intros _.
  fs_step.
Qed.

Lemma fetch_credentials_witness :
  header "Authorization"
    (V2Fetch.spread (V2Fetch.getToken "KEY" (Some "COOKIE"))
       [("Content-Type", "application/x-www-form-urlencoded")]) = None
  /\ header "Cookie"
       (V2Fetch.spread (V2Fetch.getToken "KEY" (Some "COOKIE"))
          [("Content-Type", "application/x-www-form-urlencoded")])
     = Some "token=COOKIE".
Proof.
  apply (fetch_request_credentials fetch_args demo_env
           (fetch_world (ok_response "" None) (ok_response "csrf-1" None)) demo_fs
           _ (DeletePath "build")).
  vm_compute. tauto.
Defined.

(** ** The [fetch] version: refused edits *)

(** X15.  In the [fetch] version, once the CSRF token is there, an edit the
    server answers with a refusal does not end [finalizeUpload]: it returns
    normally, the marker edit is sent last (after the RSS edit, if there
    is one), [Sent cookie request] is logged exactly when the marker edit
    was accepted, and each refusal is logged at error level. *)
Theorem fetch_refused_edits_not_fatal (w : V2Fetch.FetchWorld) (apiToken token : Headers)
    (bigId : string) (rssFile rssContent : option string) (fs : FS)
    (rr rm : V2Fetch.HttpResponse) :
  V2Fetch.f_editRss w = V2Fetch.Response rr ->
  V2Fetch.f_editMarker w = V2Fetch.Response rm ->
  let r := V2Fetch.finalizeUpload w apiToken token bigId rssFile rssContent fs in
  resolved EpCsrf (trace_of r) = true ->
  result_of r = inr tt
  /\ map pathname (edit_forms (trace_of r))
     = (if truthy rssFile && truthy rssContent then [or_empty rssFile] else [])
       ++ [V2Fetch.marker_path]
  /\ logged Info "Sent cookie request" (trace_of r) = V2Fetch.ok rm
  /\ (V2Fetch.ok rm = false ->
      In (Log Err (refused_edit_message "cookie request" rm)) (trace_of r))
  /\ (truthy rssFile && truthy rssContent = true -> V2Fetch.ok rr = false ->
      In (Log Err (refused_edit_message "RSS cookie request" rr)) (trace_of r)).
Proof.
  intros Hr Hm. cbv zeta.
  unfold V2Fetch.finalizeUpload, V2Fetch.getCSRFToken, V2Fetch.response_json,
    V2Fetch.fetch, refused_edit_message, resolved, logged,
    log, emit, ret, throw, bind, trace_of, result_of.
  rewrite Hr, Hm.
  repeat (simpl; break_match); simpl; intros H; try discriminate;
    repeat split; try reflexivity; intros; try discriminate; find_in.
Qed.

Lemma fetch_refused_edits_witness :
  let w := {| V2Fetch.f_archiver := fun _ => "PK";
              V2Fetch.f_readdir := demo_readdir;
              V2Fetch.f_depth := 8;
              V2Fetch.f_create := ok_response "" (Some [("id", "session-1")]);
              V2Fetch.f_append := ok_response "" None;
              V2Fetch.f_delete := ok_response "" None;
              V2Fetch.f_import := ok_response "" None;
              V2Fetch.f_siteInfo := ok_response "" (Some [("username", "me")]);
              V2Fetch.f_csrf := ok_response "csrf-1" None;
              V2Fetch.f_editRss := refused_response 403 "no";
              V2Fetch.f_editMarker := ok_response "" None;
              V2Fetch.f_now_text := "now" |} in
  let r := V2Fetch.finalizeUpload w (V2Fetch.getToken "KEY" None)
             (V2Fetch.getToken "KEY" (Some "COOKIE")) "session-1"
             (Some "/proj/dist/rss.xml") (Some "<rss/>") demo_fs in
  result_of r = inr tt
  /\ map pathname (edit_forms (trace_of r))
     = ["/proj/dist/rss.xml"; ".astro-adapter-nekoweb.html"]
  /\ logged Info "Sent cookie request" (trace_of r) = true.
Proof.
  cbv zeta.
  match goal with
  | |- result_of (V2Fetch.finalizeUpload ?w ?a ?t ?b ?rf ?rc ?fs) = _ /\ _ =>
      destruct (fetch_refused_edits_not_fatal w a t b rf rc fs _ _ eq_refl eq_refl eq_refl)
        as (H1 & H2 & H3 & _)
  end.
  repeat split; assumption.
Defined.

(** ** Runs that end with the failure of the import *)

Lemma no_cookie_import_witness :
  result_of (V3.build_done args_no_cookie demo_env world_import_fails demo_fs)
  = inl (ApiError EpImport 500 "import failed").
Proof.
  apply (no_cookie_import_failure_propagates args_no_cookie demo_env world_import_fails
           demo_fs _ eq_refl).
  vm_compute. tauto.
Defined.

Lemma fetch_import_aborts_witness :
  let r := V2Fetch.finalizeUpload
             (fetch_world (refused_response 500 "import failed") (ok_response "csrf-1" None))
             (V2Fetch.getToken "KEY" None) (V2Fetch.getToken "KEY" (Some "COOKIE"))
             "session-1" None None demo_fs in
  result_of r = inl (PlainError "Failed to import: 500 Refused (import failed)")
  /\ sent EpCsrf (trace_of r) = false.
Proof.
  cbv zeta.
  destruct (fetch_import_failure_aborts
              (fetch_world (refused_response 500 "import failed") (ok_response "csrf-1" None))
              (V2Fetch.getToken "KEY" None) (V2Fetch.getToken "KEY" (Some "COOKIE"))
              "session-1" None None _ demo_fs eq_refl eq_refl) as [H1 H2].
  split; [exact H1|rewrite H2; reflexivity].
Defined.
